(** * The generic repository of the FastAPI template, embedded in Rocq

    Source: [src/utils/base/BaseRepository.py] (class [BaseRepository]) and
    the part of [src/utils/base/BaseService.py] that wraps its list
    operation.

    Conventions of the embedding.

    - Python values that columns, identifiers and query parameters carry are
      the constructors of [pyval]; strings are ASCII strings.
    - A raised exception is [Raise e]; [try ... except] is written out as a
      [match] on the result.
    - What the repository uses but does not define (the standard library's
      [uuid.UUID], [Base.__subclasses__()] and the SQLAlchemy session) is the
      record [Env]; every definition of the repository is parametric in it.
    - Coroutines are run to completion in program order: the expansion only
      reads the session, so [asyncio.gather] is the in-order map of its
      branches. *)

From Stdlib Require Import String Ascii List ZArith NArith Bool Arith Lia.
Import ListNotations.
Open Scope string_scope.
Open Scope list_scope.
Set Warnings "-register-all".

(* ================================================================== *)
(** ** Python values *)

Inductive pyval : Type :=
| VNone
| VBool (b : bool)
| VInt (z : Z)
| VStr (s : string)
| VUuid (u : N)            (* uuid.UUID, by its 128-bit [int] *)
| VDatetime (t : Z)        (* datetime, by an opaque time stamp *)
| VList (l : list pyval).

(** [bool(v)] *)
Definition truthy (v : pyval) : bool :=
  match v with
  | VNone => false
  | VBool b => b
  | VInt z => negb (z =? 0)%Z
  | VStr s => negb (s =? EmptyString)
  | VUuid _ => true
  | VDatetime _ => true
  | VList l => match l with [] => false | _ => true end
  end.

Definition is_none (v : pyval) : bool :=
  match v with VNone => true | _ => false end.

Fixpoint pyval_eqb (a b : pyval) {struct a} : bool :=
  match a, b with
  | VNone, VNone => true
  | VBool x, VBool y => Bool.eqb x y
  | VInt x, VInt y => (x =? y)%Z
  | VStr x, VStr y => (x =? y)
  | VUuid x, VUuid y => (x =? y)%N
  | VDatetime x, VDatetime y => (x =? y)%Z
  | VList x, VList y =>
      (fix list_eqb (l1 l2 : list pyval) {struct l1} : bool :=
         match l1, l2 with
         | [], [] => true
         | v1 :: r1, v2 :: r2 => pyval_eqb v1 v2 && list_eqb r1 r2
         | _, _ => false
         end) x y
  | _, _ => false
  end.

(* ================================================================== *)
(** ** Exceptions and the error monad *)

Inductive not_found_message : Type :=
| EntityNotFound (entity_id : pyval)      (* f"Entity with id {entity_id} not found" *)
| InvalidUUIDFormat (entity_id : pyval).  (* f"Invalid UUID format: {entity_id}" *)

Inductive exn : Type :=
| ValueError
| TypeError
| AttributeError (name : string)
| UnboundLocalError (variable : string)
| ArgumentError                            (* sqlalchemy.exc.ArgumentError: a statement that cannot be built *)
| DBAPIError                               (* what session.execute raises on a failed round trip *)
| MultipleResultsFound
| NotFoundException (message : not_found_message)   (* HTTP 404 *)
| BadRequestException (error : exn).                (* HTTP 400, detail.error = str(ex) *)

Inductive result (A : Type) : Type :=
| Ok (a : A)
| Raise (e : exn).
Arguments Ok {A} a.
Arguments Raise {A} e.

Definition bind {A B} (r : result A) (k : A -> result B) : result B :=
  match r with
  | Ok a => k a
  | Raise e => Raise e
  end.

Notation "x <- c ;; k" := (bind c (fun x => k))
  (at level 61, c at next level, right associativity).
Notation "' pat <- c ;; k" := (bind c (fun x => match x with pat => k end))
  (at level 61, pat pattern, c at next level, right associativity).

(** The comprehension [await f(x) for x in xs], and the in-order reading
    of [asyncio.gather] over the coroutines [f(x) for x in xs]. *)
Fixpoint mapM {A B} (f : A -> result B) (xs : list A) : result (list B) :=
  match xs with
  | [] => Ok []
  | x :: rest =>
      y <- f x ;;
      ys <- mapM f rest ;;
      Ok (y :: ys)
  end.

(* ================================================================== *)
(** ** The string operations the repository calls *)

Definition is_digit_char (c : ascii) : bool :=
  let n := nat_of_ascii c in ((48 <=? n) && (n <=? 57))%nat.

Definition upper_char (c : ascii) : ascii :=
  let n := nat_of_ascii c in
  if ((97 <=? n) && (n <=? 122))%nat then ascii_of_nat (n - 32) else c.

Definition lower_char (c : ascii) : ascii :=
  let n := nat_of_ascii c in
  if ((65 <=? n) && (n <=? 90))%nat then ascii_of_nat (n + 32) else c.

Fixpoint map_string (f : ascii -> ascii) (s : string) : string :=
  match s with
  | EmptyString => EmptyString
  | String c rest => String (f c) (map_string f rest)
  end.

Fixpoint forall_string (p : ascii -> bool) (s : string) : bool :=
  match s with
  | EmptyString => true
  | String c rest => p c && forall_string p rest
  end.

(** [s.endswith(suffix)] *)
Definition endswith (s suffix : string) : bool :=
  let n := String.length s in
  let k := String.length suffix in
  (k <=? n)%nat && (substring (n - k) k s =? suffix).

(** [s.split(sep)] for a one-character separator *)
Fixpoint split (sep : ascii) (s : string) : list string :=
  match s with
  | EmptyString => [EmptyString]
  | String c rest =>
      if Ascii.eqb c sep then EmptyString :: split sep rest
      else match split sep rest with
           | [] => [String c EmptyString]
           | w :: ws => String c w :: ws
           end
  end.

(** [sep.join(parts)] *)
Fixpoint join (sep : string) (parts : list string) : string :=
  match parts with
  | [] => EmptyString
  | [p] => p
  | p :: rest => p ++ sep ++ join sep rest
  end.

(** [s.capitalize()] *)
Definition capitalize (s : string) : string :=
  match s with
  | EmptyString => EmptyString
  | String c rest => String (upper_char c) (map_string lower_char rest)
  end.

(** [s.isdigit()] *)
Definition isdigit (s : string) : bool :=
  match s with
  | EmptyString => false
  | _ => forall_string is_digit_char s
  end.

(** [int(s)] on a string of digits *)
Definition int_of_digits (s : string) : Z :=
  fold_left
    (fun acc c => (10 * acc + Z.of_nat (nat_of_ascii c - 48))%Z)
    (list_ascii_of_string s) 0%Z.

(** [s[0:-1]] *)
Definition drop_last_char (s : string) : string :=
  substring 0 (String.length s - 1) s.

(** [for val in value]: lists and strings iterate, the other values raise. *)
Definition py_iter (v : pyval) : result (list pyval) :=
  match v with
  | VList l => Ok l
  | VStr s => Ok (map (fun c => VStr (String c EmptyString)) (list_ascii_of_string s))
  | _ => Raise TypeError
  end.

(** [a * b]: product of integers (booleans count as 0 and 1), repetition of
    a string or a list by an integer, [TypeError] otherwise. *)
Definition as_int (v : pyval) : option Z :=
  match v with
  | VInt z => Some z
  | VBool b => Some (if b then 1 else 0)%Z
  | _ => None
  end.

Fixpoint repeat_string (s : string) (n : nat) : string :=
  match n with
  | O => EmptyString
  | S k => s ++ repeat_string s k
  end.

Definition py_mul (a b : pyval) : result pyval :=
  match as_int a, as_int b with
  | Some x, Some y => Ok (VInt (x * y))
  | None, Some n =>
      match a with
      | VStr s => Ok (VStr (repeat_string s (Z.to_nat n)))
      | VList l => Ok (VList (concat (repeat l (Z.to_nat n))))
      | _ => Raise TypeError
      end
  | Some n, None =>
      match b with
      | VStr s => Ok (VStr (repeat_string s (Z.to_nat n)))
      | VList l => Ok (VList (concat (repeat l (Z.to_nat n))))
      | _ => Raise TypeError
      end
  | None, None => Raise TypeError
  end.

(* ================================================================== *)
(** ** Dictionaries

    A Python [dict] keeps insertion order and has one entry per key: an
    association list, read by its first entry for a key and written in
    place. *)

Definition dict (V : Type) : Type := list (string * V).

Fixpoint dict_get {V} (k : string) (d : dict V) : option V :=
  match d with
  | [] => None
  | (k', v) :: rest => if (k' =? k)%string then Some v else dict_get k rest
  end.

(** [d[k] = v] *)
Fixpoint dict_set {V} (k : string) (v : V) (d : dict V) : dict V :=
  match d with
  | [] => [(k, v)]
  | (k', v') :: rest =>
      if (k' =? k)%string then (k', v) :: rest else (k', v') :: dict_set k v rest
  end.

(** [del d[k]] *)
Fixpoint dict_del {V} (k : string) (d : dict V) : dict V :=
  match d with
  | [] => []
  | (k', v') :: rest =>
      if (k' =? k)%string then rest else (k', v') :: dict_del k rest
  end.

(** [d.get(k)] *)
Definition py_get (k : string) (d : dict pyval) : pyval :=
  match dict_get k d with
  | Some v => v
  | None => VNone
  end.

(* ================================================================== *)
(** ** Models, rows and documents *)

(** [model.id.type]: only whether its [python_type] is [UUID] matters to the
    repository; the in-memory session below also uses it to bind keys. *)
Inductive sqltype : Type := TInteger | TUuid | TString.

(** What the repository inspects of a mapped class. *)
Record Model : Type := {
  class_name : string;        (* cls.__name__ *)
  attributes : list string;   (* the names n with hasattr(cls, n) *)
  class_dict : list string;   (* the names n with a truthy cls.__dict__.get(n) *)
  columns : list string;      (* the keys of class_mapper(cls).columns *)
  id_type : sqltype           (* cls.id.type *)
}.

Definition hasattr (m : Model) (name : string) : bool :=
  existsb (String.eqb name) (attributes m).

Definition in_class_dict (m : Model) (name : string) : bool :=
  existsb (String.eqb name) (class_dict m).

(** [model.id.type.python_type == UUID] *)
Definition id_python_type_is_UUID (m : Model) : bool :=
  match id_type m with
  | TUuid => true
  | _ => false
  end.

(** [getattr(self.model, name)], for its exception only *)
Definition getattr_model (m : Model) (name : string) : result unit :=
  if hasattr m name then Ok tt else Raise (AttributeError name).

(** A mapped instance, seen through its mapped columns. *)
Definition Row : Type := dict pyval.

(** The document the expander builds: the values of the base row, the
    sub-documents spliced under derived keys, [JNull] for a [None] where a
    sub-document was asked for. *)
Inductive json : Type :=
| JCol (v : pyval)
| JNull
| JObj (fields : list (string * json))
| JList (items : list json).

(** Number of dictionaries on the longest path into a document. *)
Fixpoint height (j : json) : nat :=
  match j with
  | JCol _ => 0
  | JNull => 0
  | JObj fields => S (list_max (map (fun kv => height (snd kv)) fields))
  | JList items => list_max (map height items)
  end.

(** Relationship hops below the root of a document. *)
Definition nesting (j : json) : nat := pred (height j).

(* ================================================================== *)
(** ** Predicates and queries handed to the session *)

Inductive predicate : Type :=
| Eq (column : string) (v : pyval)      (* getattr(model, column) == v *)
| IsNull (column : string)              (* getattr(model, column).is_(None) *)
| In_ (column : string) (v : pyval)     (* getattr(model, column).in_(v) *)
| Any_ (column : string) (v : pyval)    (* getattr(model, column).any(v) *)
| Ge (column : string) (v : pyval)      (* getattr(model, column) >= v *)
| Le (column : string) (v : pyval).     (* getattr(model, column) <= v *)

(** [select(model.id)] with its [filter], [offset] and [limit] clauses *)
Record Query : Type := {
  q_filters : list predicate;
  q_offset : option pyval;
  q_limit : option pyval
}.

Inductive response : Type :=
| JSONResponse (status_code : Z).

(** What the repository calls but does not define. *)
Record Env (Session : Type) : Type := {
  (* uuid.UUID(s); None stands for ValueError *)
  UUID : string -> option N;
  (* str(u) for a UUID u *)
  str_of_UUID : N -> string;
  (* Base.__subclasses__() *)
  subclasses : list Model;
  (* _execute_query_one_or_none(select(model).where(getattr(model, column) == v), session) *)
  scalar_one_or_none : Session -> Model -> string -> pyval -> result (option Row);
  (* session.get(model, v) *)
  session_get : Session -> Model -> pyval -> result (option Row);
  (* _execute_query_scalar_all(query, session) for a query on model.id *)
  scalars_all : Session -> Model -> Query -> result (list pyval);
  (* session.execute(insert(model).values(row).returning(model.id)).scalar() *)
  execute_insert : Session -> Model -> Row -> result (Session * pyval);
  (* session.execute(update(model).where(getattr(model, column) == v).values(row)) *)
  execute_update : Session -> Model -> string -> pyval -> Row -> result Session;
  (* session.execute(delete(model).where(getattr(model, column) == v)) *)
  execute_delete : Session -> Model -> string -> pyval -> result Session
}.
Arguments UUID {Session} _ _.
Arguments str_of_UUID {Session} _ _.
Arguments subclasses {Session} _.
Arguments scalar_one_or_none {Session} _ _ _ _ _.
Arguments session_get {Session} _ _ _ _.
Arguments scalars_all {Session} _ _ _ _.
Arguments execute_insert {Session} _ _ _ _.
Arguments execute_update {Session} _ _ _ _ _ _.
Arguments execute_delete {Session} _ _ _ _ _.

(** A repository object: its [model] attribute and, when the class has
    one, its [parse_datetime] method (taken on [str] of its argument).
    [BaseRepository] and its subclasses under [src/] define none. *)
Record Repository : Type := {
  model : Model;
  parse_datetime : option (pyval -> result pyval)
}.

Definition BaseRepository (m : Model) : Repository :=
  {| model := m; parse_datetime := None |}.

(** [BaseRepository._is_model_id_or_uuid] *)
Definition _is_model_id_or_uuid (column_name : string) : bool :=
  endswith column_name "id" || endswith column_name "uuid".

(** [BaseRepository._is_model_ids_or_uuids] *)
Definition _is_model_ids_or_uuids (column_name : string) : bool :=
  endswith column_name "ids" || endswith column_name "uuids".

(** [BaseRepository.__object_as_dict] *)
Definition __object_as_dict (obj : Row) : list (string * json) :=
  map (fun kv => (fst kv, JCol (snd kv))) obj.

(** [BaseRepository.__add_fields_to_json] *)
Definition __add_fields_to_json (json_obj fields_to_add : list (string * json))
  : list (string * json) :=
  fold_left
    (fun obj field =>
       match snd field with
       | JNull => obj
       | sub_json => dict_set (fst field) sub_json obj
       end)
    fields_to_add json_obj.

(* ================================================================== *)
(** ** The repository *)

Section Repository.

Context {Session : Type}.
Variable E : Env Session.

(** [BaseRepository.__get_model_by_name]: the dictionary comprehension
    keeps the last class of a given name. *)
Definition __get_model_by_name (model_name : string) : option Model :=
  let models := subclasses E in
  let splitted_model_name := split "_" model_name in
  let model_name := join EmptyString (map capitalize splitted_model_name) in
  find (fun cls => (class_name cls =? model_name)%string) (rev models).

(** [if isinstance(entity_id, str): entity_id = UUID(entity_id)] *)
Definition str_to_UUID (entity_id : pyval) : result pyval :=
  match entity_id with
  | VStr s =>
      match UUID E s with
      | Some u => Ok (VUuid u)
      | None => Raise ValueError
      end
  | _ => Ok entity_id
  end.

(** [if isinstance(entity_id, str) and entity_id.isdigit():
     entity_id = int(entity_id)] *)
Definition digits_to_int (entity_id : pyval) : pyval :=
  match entity_id with
  | VStr s => if isdigit s then VInt (int_of_digits s) else entity_id
  | _ => entity_id
  end.

(** [BaseRepository.__get_entity_by_id_or_uuid].  The expander also calls
    it with [model=None], on which no [select] can be built. *)
Definition __get_entity_by_id_or_uuid
    (session : Session) (entity_id : pyval) (model : option Model)
  : result (option Row) :=
  match model with
  | None => Raise ArgumentError
  | Some model =>
      if hasattr model "uuid" && hasattr model "id" then
        if id_python_type_is_UUID model then
          (* try: convert, query by id; except ValueError: return None *)
          match str_to_UUID entity_id with
          | Raise ValueError => Ok None
          | Raise e => Raise e
          | Ok entity_id =>
              match scalar_one_or_none E session model "id" entity_id with
              | Raise ValueError => Ok None
              | r => r
              end
          end
        else
          match entity_id with
          | VStr s =>
              match UUID E s with
              | Some u =>
                  match scalar_one_or_none E session model "uuid" (VUuid u) with
                  | Raise ValueError =>
                      (* the handler calls isdigit on the UUID object *)
                      Raise (AttributeError "isdigit")
                  | r => r
                  end
              | None =>
                  if isdigit s then
                    scalar_one_or_none E session model "id" (VInt (int_of_digits s))
                  else Ok None
              end
          | VInt _ | VBool _ =>
              scalar_one_or_none E session model "id" entity_id
          | _ =>
              scalar_one_or_none E session model "uuid" entity_id
          end
      else
        let entity_id := digits_to_int entity_id in
        _ <- getattr_model model "id" ;;
        scalar_one_or_none E session model "id" entity_id
  end.

(** The body of the loop of [__get_one_recursive] for one column: what it
    appends to [jsons_to_add_to_final_result].  [recur] is the recursive
    call at [recursive_depth - 1]. *)
Definition expand_column
    (recur : option Model -> pyval -> result json)
    (column : string) (value : pyval)
  : result (list (string * json)) :=
  if _is_model_id_or_uuid column then
    let column_name := join "_" (removelast (split "_" column)) in
    match __get_model_by_name column_name with
    | Some model =>
        sub_json <- recur (Some model) value ;;
        Ok [(column_name, sub_json)]
    | None => Ok []
    end
  else if _is_model_ids_or_uuids column then
    let column_name := join "_" (removelast (split "_" column)) in
    let model := __get_model_by_name column_name in
    let column_name := (column_name ++ "s")%string in
    match value with
    | VNone => Ok []
    | _ =>
        vals <- py_iter value ;;
        sub_jsons <- mapM (recur model)
                       (filter (fun val => negb (is_none val)) vals) ;;
        Ok [(column_name, JList sub_jsons)]
    end
  else Ok [].

(** The loop over [json_result.items()]. *)
Fixpoint expand_columns
    (recur : option Model -> pyval -> result json) (items : Row)
  : result (list (string * json)) :=
  match items with
  | [] => Ok []
  | (column, value) :: rest =>
      added <- expand_column recur column value ;;
      more <- expand_columns recur rest ;;
      Ok (added ++ more)
  end.

(** [BaseRepository.__get_one_recursive].  [recursive_depth] is a natural
    number: the code tests [recursive_depth > 0] and recurses at
    [recursive_depth - 1], so a negative depth behaves as 0. *)
Fixpoint __get_one_recursive
    (session : Session) (recursive_depth : nat)
    (model : option Model) (item_id : pyval) {struct recursive_depth}
  : result json :=
  match __get_entity_by_id_or_uuid session item_id model with
  | Raise _ => Ok JNull           (* except Exception: return None *)
  | Ok None => Ok JNull
  | Ok (Some object_result) =>
      let json_result := __object_as_dict object_result in
      jsons_to_add_to_final_result <-
        match recursive_depth with
        | O => Ok []
        | S depth =>
            expand_columns (__get_one_recursive session depth) object_result
        end ;;
      Ok (JObj (__add_fields_to_json json_result jsons_to_add_to_final_result))
  end.

Variable self : Repository.

(** [BaseRepository.get_entity_from_db_by_id] *)
Definition get_entity_from_db_by_id
    (entity_id : pyval) (session : Session) (recursive_depth : nat)
  : result json :=
  if hasattr (model self) "uuid" && hasattr (model self) "id"
     && id_python_type_is_UUID (model self)
  then
    match str_to_UUID entity_id with
    | Raise ValueError => Ok JNull
    | Raise e => Raise e
    | Ok entity_id =>
        __get_one_recursive session recursive_depth (Some (model self)) entity_id
    end
  else
    __get_one_recursive session recursive_depth (Some (model self)) entity_id.

(** [BaseRepository.create_entity_in_db]; [entity] is
    [entity.model_dump()].  The inner expansions run at the default
    [recursive_depth=2] of [__get_one_recursive]. *)
Definition create_entity_in_db (entity : Row) (session : Session)
  : result (Session * json) :=
  _ <- getattr_model (model self) "id" ;;
  '(session, entity_from_db_id) <- execute_insert E session (model self) entity ;;
  if hasattr (model self) "uuid" && id_python_type_is_UUID (model self) then
    created_entity <-
      scalar_one_or_none E session (model self) "id" entity_from_db_id ;;
    match created_entity with
    | Some created_entity => Ok (session, JObj (__object_as_dict created_entity))
    | None =>
        doc <- __get_one_recursive session 2 (Some (model self)) entity_from_db_id ;;
        Ok (session, doc)
    end
  else
    doc <- __get_one_recursive session 2 (Some (model self)) entity_from_db_id ;;
    Ok (session, doc).

(** The first block of [update_entity_in_db]: the identifier as the
    block leaves it, and the entity it finds. *)
Definition update_lookup (entity_id : pyval) (session : Session)
  : result (pyval * option Row) :=
  if hasattr (model self) "uuid" then
    match str_to_UUID entity_id with
    | Raise _ => Raise (NotFoundException (InvalidUUIDFormat entity_id))
    | Ok entity_id =>
        match scalar_one_or_none E session (model self) "uuid" entity_id with
        | Raise ValueError =>
            Raise (NotFoundException (InvalidUUIDFormat entity_id))
        | Raise e => Raise e
        | Ok entity_from_db => Ok (entity_id, entity_from_db)
        end
    end
  else
    let entity_id := digits_to_int entity_id in
    entity_from_db <- session_get E session (model self) entity_id ;;
    Ok (entity_id, entity_from_db).

(** The dictionary comprehension of [update_entity_in_db]. *)
Definition non_null_fields (dump : dict pyval) : dict pyval :=
  filter (fun kv => negb (is_none (snd kv))) dump.

(** The [update] statement of [update_entity_in_db]. *)
Definition update_statement
    (entity_id : pyval) (update_data : dict pyval) (session : Session)
  : result (pyval * Session) :=
  if hasattr (model self) "uuid" then
    match str_to_UUID entity_id with
    | Raise _ => Raise (NotFoundException (InvalidUUIDFormat entity_id))
    | Ok entity_id =>
        match execute_update E session (model self) "uuid" entity_id update_data with
        | Raise ValueError =>
            Raise (NotFoundException (InvalidUUIDFormat entity_id))
        | Raise e => Raise e
        | Ok session => Ok (entity_id, session)
        end
    end
  else
    let entity_id := digits_to_int entity_id in
    _ <- getattr_model (model self) "id" ;;
    session <- execute_update E session (model self) "id" entity_id update_data ;;
    Ok (entity_id, session).

(** [BaseRepository.update_entity_in_db]; [entity] is
    [entity.model_dump(exclude_unset=True)]. *)
Definition update_entity_in_db
    (entity_id : pyval) (entity : dict pyval) (session : Session)
  : result (Session * json) :=
  '(entity_id, entity_from_db) <- update_lookup entity_id session ;;
  match entity_from_db with
  | None => Raise (NotFoundException (EntityNotFound entity_id))
  | Some _ =>
      let update_data := non_null_fields entity in
      match update_data with
      | [] =>
          doc <- __get_one_recursive session 2 (Some (model self)) entity_id ;;
          Ok (session, doc)
      | _ =>
          '(entity_id, session) <- update_statement entity_id update_data session ;;
          doc <- __get_one_recursive session 2 (Some (model self)) entity_id ;;
          Ok (session, doc)
      end
  end.

(** [BaseRepository.delete_entity_from_db_by_id] *)
Definition delete_entity_from_db_by_id (entity_id : pyval) (session : Session)
  : result (Session * response) :=
  entity_from_db <-
    __get_entity_by_id_or_uuid session entity_id (Some (model self)) ;;
  match entity_from_db with
  | None => Raise (NotFoundException (EntityNotFound entity_id))
  | Some _ =>
      if hasattr (model self) "uuid" then
        match str_to_UUID entity_id with
        | Raise _ => Raise (NotFoundException (InvalidUUIDFormat entity_id))
        | Ok entity_id =>
            match execute_delete E session (model self) "uuid" entity_id with
            | Raise ValueError =>
                Raise (NotFoundException (InvalidUUIDFormat entity_id))
            | Raise e => Raise e
            | Ok session => Ok (session, JSONResponse 204)
            end
        end
      else
        let entity_id := digits_to_int entity_id in
        _ <- getattr_model (model self) "id" ;;
        session <- execute_delete E session (model self) "id" entity_id ;;
        Ok (session, JSONResponse 204)
  end.

(** The normalisation at the head of the loop of
    [_process_filters_of_query_parameters]. *)
Definition stringify_uuids (value : pyval) : pyval :=
  match value with
  | VUuid u => VStr (str_of_UUID E u)
  | VList l =>
      VList (map (fun v => match v with
                           | VUuid u => VStr (str_of_UUID E u)
                           | _ => v
                           end) l)
  | _ => value
  end.

(** The body of that loop for one parameter: the predicates it appends.
    [raw] is [processed_params.get(param)]. *)
Definition filters_of_param (param : string) (raw : pyval)
  : result (list predicate) :=
  let value := stringify_uuids raw in
  by_id <-
    (if _is_model_id_or_uuid param then
       _ <- getattr_model (model self) param ;;
       Ok [match value with
           | VNone => IsNull param
           | VList _ => In_ param value
           | _ => Eq param value
           end]
     else Ok []) ;;
  by_ids <-
    (if _is_model_ids_or_uuids param then
       if in_class_dict (model self) param then
         _ <- getattr_model (model self) param ;;
         Ok [Any_ param value]
       else
         _ <- getattr_model (model self) (drop_last_char param) ;;
         Ok [In_ (drop_last_char param) value]
     else Ok []) ;;
  by_bool <-
    (match raw with
     | VBool _ =>
         _ <- getattr_model (model self) param ;;
         Ok [Eq param value]
     | _ => Ok []
     end) ;;
  Ok (by_id ++ by_ids ++ by_bool).

Fixpoint filters_of_params (params : dict pyval) : result (list predicate) :=
  match params with
  | [] => Ok []
  | (param, raw) :: rest =>
      here <- filters_of_param param raw ;;
      more <- filters_of_params rest ;;
      Ok (here ++ more)
  end.

(** One bound of the temporal range: [name] is [time_start] or
    [time_finish], [field] the model column without its prefix. *)
Definition time_filter
    (query_parameters : dict pyval) (name field : string)
    (compare : string -> pyval -> predicate)
  : result (list predicate) :=
  if truthy (py_get name query_parameters) then
    match parse_datetime self with
    | None => Raise (AttributeError "parse_datetime")
    | Some parse =>
        t <- parse (py_get name query_parameters) ;;
        if in_class_dict (model self) ("datetime_" ++ field)%string then
          _ <- getattr_model (model self) ("datetime_" ++ field)%string ;;
          Ok [compare ("datetime_" ++ field)%string t]
        else
          _ <- getattr_model (model self) ("time_" ++ field)%string ;;
          Ok [compare ("time_" ++ field)%string t]
    end
  else Ok [].

(** [BaseRepository._process_filters_of_query_parameters] *)
Definition _process_filters_of_query_parameters
    (filters : list predicate) (query_parameters : option (dict pyval))
  : result (list predicate) :=
  match query_parameters with
  | None => Ok filters
  | Some [] => Ok filters
  | Some query_parameters =>
      let processed_params := query_parameters in
      let user_rule :=
        truthy (py_get "user_id" processed_params)
        && hasattr (model self) "user_uuid" in
      let by_user :=
        if user_rule
        then [Eq "user_uuid" (py_get "user_id" processed_params)] else [] in
      let processed_params :=
        if user_rule then dict_del "user_id" processed_params
        else processed_params in
      by_param <- filters_of_params processed_params ;;
      by_start <- time_filter query_parameters "time_start" "start" Ge ;;
      by_finish <- time_filter query_parameters "time_finish" "finish" Le ;;
      Ok (filters ++ by_user ++ by_param ++ by_start ++ by_finish)
  end.

(** Reading a local variable that may not have been bound. *)
Definition read_local (name : string) (binding : option pyval) : result pyval :=
  match binding with
  | Some v => Ok v
  | None => Raise (UnboundLocalError name)
  end.

(** The pagination of [__get_all_recursive]: the chain
    [if offset and limit / elif limit / elif offset] on the local
    variables. *)
Definition paginate (query : Query) (limit offset : option pyval) : result Query :=
  o <- read_local "offset" offset ;;
  both <- (if truthy o then l <- read_local "limit" limit ;; Ok (truthy l)
           else Ok false) ;;
  if both then
    l <- read_local "limit" limit ;;
    by_page <- py_mul o l ;;
    Ok {| q_filters := q_filters query;
          q_offset := Some by_page;
          q_limit := q_limit query |}
  else
    l <- read_local "limit" limit ;;
    if truthy l then
      Ok {| q_filters := q_filters query;
            q_offset := q_offset query;
            q_limit := Some l |}
    else
      if truthy o then
        Ok {| q_filters := q_filters query;
              q_offset := Some o;
              q_limit := q_limit query |}
      else Ok query.

(** [BaseRepository.__get_all_recursive] *)
Definition __get_all_recursive
    (session : Session) (query_parameters : option (dict pyval))
    (recursive_depth : nat)
  : result (list json) :=
  let query := {| q_filters := []; q_offset := None; q_limit := None |} in
  let filters_raw := [] in
  query <-
    match query_parameters with
    | None => Ok query
    | Some [] => Ok query
    | Some parameters =>
        filters <- _process_filters_of_query_parameters filters_raw query_parameters ;;
        match filters with
        | [] => paginate query None None
        | _ =>
            paginate {| q_filters := filters; q_offset := None; q_limit := None |}
              (Some (py_get "limit" parameters))
              (Some (py_get "offset" parameters))
        end
    end ;;
  all_db_entities_ids <- scalars_all E session (model self) query ;;
  mapM (__get_one_recursive session recursive_depth (Some (model self)))
    all_db_entities_ids.

(** [BaseRepository.get_all_entities_from_db]; its decorators log and
    re-raise. *)
Definition get_all_entities_from_db
    (session : Session) (query_parameters : option (dict pyval))
    (recursive_depth : nat)
  : result (list json) :=
  __get_all_recursive session query_parameters recursive_depth.

(** [BaseService.get_all_entities]; [get_response_scheme] is
    [self.schemas.get_response_scheme], called on the fields of each
    document ([None] is no mapping, a [TypeError]). *)
Definition get_all_entities
    (get_response_scheme : list (string * json) -> result json)
    (session : Session) (query_parameters : option (dict pyval))
    (recursive_depth : nat)
  : result (list json) :=
  match
    (all_entities <-
       get_all_entities_from_db session query_parameters recursive_depth ;;
     mapM (fun entity =>
             match entity with
             | JObj fields => get_response_scheme fields
             | _ => Raise TypeError
             end) all_entities)
  with
  | Ok schemes => Ok schemes
  | Raise ex => Raise (BadRequestException ex)
  end.

End Repository.

(* ================================================================== *)
(** ** An in-memory session

    A reference instance of [Env]: tables of rows, keys bound the way a
    PostgreSQL driver binds them (a value that does not fit the type of the
    key column fails the round trip), a list of tables that cannot be
    reached, and a sequence that feeds generated keys.  [plain_UUID] reads
    the hexadecimal form of a UUID, with or without dashes. *)

Definition hex_value (c : ascii) : option N :=
  let n := nat_of_ascii c in
  if ((48 <=? n) && (n <=? 57))%nat then Some (N.of_nat (n - 48))
  else if ((97 <=? n) && (n <=? 102))%nat then Some (N.of_nat (n - 87))
  else if ((65 <=? n) && (n <=? 70))%nat then Some (N.of_nat (n - 55))
  else None.

Fixpoint hex_to_N (digits : list ascii) (acc : N) : option N :=
  match digits with
  | [] => Some acc
  | c :: rest =>
      match hex_value c with
      | Some d => hex_to_N rest (16 * acc + d)%N
      | None => None
      end
  end.

Definition plain_UUID (s : string) : option N :=
  let hex := filter (fun c => negb (Ascii.eqb c "-")) (list_ascii_of_string s) in
  if (List.length hex =? 32)%nat then hex_to_N hex 0%N else None.

Definition hex_digit (d : N) : ascii :=
  nth (N.to_nat d) (list_ascii_of_string "0123456789abcdef") "0"%char.

Fixpoint hex_digits (count : nat) (n : N) (acc : list ascii) : list ascii :=
  match count with
  | O => acc
  | S k => hex_digits k (n / 16)%N (hex_digit (n mod 16)%N :: acc)
  end.

Definition plain_str_of_UUID (u : N) : string :=
  let h := string_of_list_ascii (hex_digits 32 u []) in
  (substring 0 8 h ++ "-" ++ substring 8 4 h ++ "-" ++ substring 12 4 h
   ++ "-" ++ substring 16 4 h ++ "-" ++ substring 20 12 h)%string.

Record Mem : Type := {
  tables : dict (list Row);     (* class name -> rows *)
  unreachable : list string;    (* tables whose round trips fail *)
  serial : N                    (* source of generated keys *)
}.

Definition rows_of (db : Mem) (m : Model) : list Row :=
  match dict_get (class_name m) (tables db) with
  | Some rows => rows
  | None => []
  end.

Definition set_rows (db : Mem) (m : Model) (rows : list Row) : Mem :=
  {| tables := dict_set (class_name m) rows (tables db);
     unreachable := unreachable db;
     serial := serial db |}.

Definition round_trip (db : Mem) (m : Model) : result unit :=
  if existsb (String.eqb (class_name m)) (unreachable db)
  then Raise DBAPIError else Ok tt.

Definition column_type (m : Model) (column : string) : option sqltype :=
  if (column =? "id")%string then Some (id_type m)
  else if (column =? "uuid")%string then Some TUuid
  else None.

Definition bind_parameter (t : option sqltype) (v : pyval) : result pyval :=
  match v, t with
  | VNone, _ => Ok VNone
  | _, None => Ok v
  | VInt _, Some TInteger => Ok v
  | VUuid _, Some TUuid => Ok v
  | VStr s, Some TUuid =>
      match plain_UUID s with
      | Some u => Ok (VUuid u)
      | None => Raise DBAPIError
      end
  | VStr _, Some TString => Ok v
  | _, _ => Raise DBAPIError
  end.

(** [getattr(model, column) == key] on a row; a [None] key reads IS NULL. *)
Definition matches (column : string) (key : pyval) (row : Row) : bool :=
  pyval_eqb (py_get column row) key.

Definition mem_scalar_one_or_none
    (db : Mem) (m : Model) (column : string) (v : pyval) : result (option Row) :=
  _ <- round_trip db m ;;
  key <- bind_parameter (column_type m column) v ;;
  match filter (matches column key) (rows_of db m) with
  | [] => Ok None
  | [row] => Ok (Some row)
  | _ => Raise MultipleResultsFound
  end.

Definition holds (row : Row) (p : predicate) : bool :=
  match p with
  | Eq column v => pyval_eqb (py_get column row) v
  | IsNull column => is_none (py_get column row)
  | In_ column (VList l) => existsb (pyval_eqb (py_get column row)) l
  | In_ _ _ => false
  | Any_ column v =>
      match py_get column row with
      | VList l => existsb (pyval_eqb v) l
      | _ => false
      end
  | Ge column (VDatetime t) =>
      match py_get column row with
      | VDatetime x => (t <=? x)%Z
      | _ => false
      end
  | Le column (VDatetime t) =>
      match py_get column row with
      | VDatetime x => (x <=? t)%Z
      | _ => false
      end
  | Ge _ _ => false
  | Le _ _ => false
  end.

Definition clause_count (clause : option pyval) : result (option nat) :=
  match clause with
  | None => Ok None
  | Some (VInt z) => if (z <? 0)%Z then Raise DBAPIError else Ok (Some (Z.to_nat z))
  | Some _ => Raise ArgumentError
  end.

Definition mem_scalars_all (db : Mem) (m : Model) (q : Query) : result (list pyval) :=
  _ <- round_trip db m ;;
  offset <- clause_count (q_offset q) ;;
  limit <- clause_count (q_limit q) ;;
  let selected :=
    filter (fun row => forallb (holds row) (q_filters q)) (rows_of db m) in
  let skipped := match offset with Some n => skipn n selected | None => selected end in
  let taken := match limit with Some n => firstn n skipped | None => skipped end in
  Ok (map (py_get "id") taken).

Definition known_columns (m : Model) (values : dict pyval) : bool :=
  forallb (fun kv => existsb (String.eqb (fst kv)) (columns m)) values.

Definition generated_key (db : Mem) (m : Model) : result pyval :=
  match id_type m with
  | TInteger => Ok (VInt (Z.of_N (serial db)))
  | TUuid => Ok (VUuid (serial db))
  | TString => Raise DBAPIError
  end.

Definition mem_insert (db : Mem) (m : Model) (values : Row)
  : result (Mem * pyval) :=
  _ <- round_trip db m ;;
  if known_columns m values then
    key <- match py_get "id" values with
           | VNone => generated_key db m
           | v => bind_parameter (Some (id_type m)) v
           end ;;
    if existsb (matches "id" key) (rows_of db m) then Raise DBAPIError
    else
      let row :=
        map (fun column =>
               (column,
                if (column =? "id")%string then key
                else match dict_get column values with
                     | Some v => v
                     | None =>
                         if (column =? "uuid")%string
                         then VUuid (serial db + 1)%N else VNone
                     end))
            (columns m) in
      Ok ({| tables := dict_set (class_name m) (rows_of db m ++ [row]) (tables db);
             unreachable := unreachable db;
             serial := (serial db + 2)%N |}, key)
  else Raise ArgumentError.

(** [SET] of an [update]: the listed columns, in order. *)
Definition patch (values : dict pyval) (row : Row) : Row :=
  fold_left (fun r kv => dict_set (fst kv) (snd kv) r) values row.

Definition mem_update
    (db : Mem) (m : Model) (column : string) (v : pyval) (values : Row)
  : result Mem :=
  _ <- round_trip db m ;;
  if known_columns m values then
    key <- bind_parameter (column_type m column) v ;;
    Ok (set_rows db m
          (map (fun row => if matches column key row then patch values row else row)
               (rows_of db m)))
  else Raise ArgumentError.

Definition mem_delete (db : Mem) (m : Model) (column : string) (v : pyval)
  : result Mem :=
  _ <- round_trip db m ;;
  key <- bind_parameter (column_type m column) v ;;
  Ok (set_rows db m
        (filter (fun row => negb (matches column key row)) (rows_of db m))).

Definition mem_env (registry : list Model) : Env Mem :=
  {| UUID := plain_UUID;
     str_of_UUID := plain_str_of_UUID;
     subclasses := registry;
     scalar_one_or_none := mem_scalar_one_or_none;
     session_get := fun db m v => mem_scalar_one_or_none db m "id" v;
     scalars_all := mem_scalars_all;
     execute_insert := mem_insert;
     execute_update := mem_update;
     execute_delete := mem_delete |}.

(* ================================================================== *)
(** ** Example data

    [User] and [Organization] follow [src/users/UserModel.py] and
    [src/organizations/OrganizationModel.py], cut down to the columns the
    examples read.  [Tag] and [Article] are plain [BaseCrudModel] classes,
    [Article] with a plural relation; [Ticket] combines [UUIDIDMixin],
    [UUIDMixin] and [OrganizationIDMixin]. *)

Module Example.

Definition Organization : Model :=
  {| class_name := "Organization";
     attributes := ["id"; "name"; "description"; "is_configured"; "user"];
     class_dict := ["name"; "description"; "is_configured"; "user"];
     columns := ["id"; "name"; "description"; "is_configured"];
     id_type := TUuid |}.

Definition User : Model :=
  {| class_name := "User";
     attributes := ["id"; "uuid"; "email"; "first_name"; "organization_id";
                    "is_active"; "organization"];
     class_dict := ["email"; "first_name"; "organization_id"; "is_active";
                    "organization"];
     columns := ["id"; "uuid"; "email"; "first_name"; "organization_id";
                 "is_active"];
     id_type := TInteger |}.

Definition Tag : Model :=
  {| class_name := "Tag";
     attributes := ["id"; "label"];
     class_dict := ["label"];
     columns := ["id"; "label"];
     id_type := TInteger |}.

Definition Article : Model :=
  {| class_name := "Article";
     attributes := ["id"; "title"; "tag_ids"];
     class_dict := ["title"; "tag_ids"];
     columns := ["id"; "title"; "tag_ids"];
     id_type := TInteger |}.

Definition Ticket : Model :=
  {| class_name := "Ticket";
     attributes := ["id"; "uuid"; "organization_id"; "subject"];
     class_dict := ["subject"];
     columns := ["id"; "uuid"; "organization_id"; "subject"];
     id_type := TUuid |}.

Definition registry : list Model := [Organization; User; Tag; Article; Ticket].

Definition env : Env Mem := mem_env registry.

Definition acme : Row :=
  [("id", VUuid 9); ("name", VStr "Acme"); ("description", VNone);
   ("is_configured", VBool true)].

Definition user_5 : Row :=
  [("id", VInt 5); ("uuid", VUuid 77); ("email", VStr "a@b.com");
   ("first_name", VStr "Ann"); ("organization_id", VUuid 9);
   ("is_active", VBool true)].

(** A user whose organization is not in the store. *)
Definition user_6 : Row :=
  [("id", VInt 6); ("uuid", VUuid 78); ("email", VStr "c@d.com");
   ("first_name", VStr "Bob"); ("organization_id", VUuid 404);
   ("is_active", VBool false)].

Definition news : Row := [("id", VInt 7); ("label", VStr "news")].

Definition article_1 : Row :=
  [("id", VInt 1); ("title", VStr "Hello"); ("tag_ids", VList [VInt 7; VInt 8])].

Definition db : Mem :=
  {| tables := [("Organization", [acme]); ("User", [user_5; user_6]);
                ("Tag", [news]);
                ("Article", [article_1]); ("Ticket", [])];
     unreachable := [];
     serial := 100 |}.

(** The same session while the table of [Tag] cannot be reached. *)
Definition db_without_tags : Mem :=
  {| tables := tables db; unreachable := ["Tag"]; serial := serial db |}.

Definition ticket_payload : Row :=
  [("organization_id", VUuid 9); ("subject", VStr "Printer")].

Definition ticket_100 : Row :=
  [("id", VUuid 100); ("uuid", VUuid 101); ("organization_id", VUuid 9);
   ("subject", VStr "Printer")].

(** [db] after the insert of [ticket_payload]. *)
Definition db_with_ticket : Mem :=
  {| tables := dict_set "Ticket" [ticket_100] (tables db);
     unreachable := [];
     serial := 102 |}.

Definition acme_document : json := JObj (__object_as_dict acme).

(** [user_5] expanded one hop. *)
Definition user_5_document : json :=
  JObj (__object_as_dict user_5 ++ [("organization", acme_document)]).

Definition sport_payload : Row := [("label", VStr "sport")].

Definition sport : Row := [("id", VInt 100); ("label", VStr "sport")].

(** [db] after the insert of [sport_payload]. *)
Definition db_with_sport : Mem :=
  {| tables := dict_set "Tag" [news; sport] (tables db);
     unreachable := [];
     serial := 102 |}.

Definition user_5_uuid : string := "00000000-0000-0000-0000-00000000004d".

(** The payload of the scenario [update(id, {first_name: None, email: "x@y.com"})]. *)
Definition partial_payload : dict pyval :=
  [("first_name", VNone); ("email", VStr "x@y.com")].

Definition user_5_patched : Row :=
  [("id", VInt 5); ("uuid", VUuid 77); ("email", VStr "x@y.com");
   ("first_name", VStr "Ann"); ("organization_id", VUuid 9);
   ("is_active", VBool true)].

End Example.

(** The [id] entry of a document. *)
Definition returned_id (doc : json) : pyval :=
  match doc with
  | JObj fields =>
      match dict_get "id" fields with
      | Some (JCol v) => v
      | _ => VNone
      end
  | _ => VNone
  end.

(* ================================================================== *)
(** ** Vocabulary of the statements *)

(** Every entry of a dictionary has height at most [h]. *)
Definition fields_below (h : nat) (fields : list (string * json)) : Prop :=
  Forall (fun kv => height (snd kv) <= h) fields.

(** A query for one row came back with a row. *)
Definition has_row (r : result (option Row)) : bool :=
  match r with
  | Ok (Some _) => true
  | _ => false
  end.


(** The column by which [update_entity_in_db] addresses the entity. *)
Definition update_key_column (self : Repository) : string :=
  if hasattr (model self) "uuid" then "uuid" else "id".

(** The last character of a string. *)
Fixpoint last_char (s : string) : option ascii :=
  match s with
  | EmptyString => None
  | String c EmptyString => Some c
  | String _ rest => last_char rest
  end.

(** The class name that [__get_model_by_name] looks for. *)
Definition camel_case (model_name : string) : string :=
  join EmptyString (map capitalize (split "_" model_name)).

(** No column of the row starts an expansion: a singular name derives no
    registered model, and a plural name carries [None]. *)
Definition leaf_row {Session} (E : Env Session) (row : Row) : bool :=
  forallb
    (fun kv =>
       if _is_model_id_or_uuid (fst kv) then
         match __get_model_by_name E
                 (join "_" (removelast (split "_" (fst kv)))) with
         | Some _ => false
         | None => true
         end
       else if _is_model_ids_or_uuids (fst kv) then is_none (snd kv)
       else true)
    row.

(* ================================================================== *)
(** ** The service

    [BaseService.create_entity] and [BaseService.update_entity], from
    [src/utils/base/BaseService.py]. *)

(** A pydantic object: its declared fields in order, each with its
    default, and the values that have been set. *)
Record Scheme : Type := {
  model_fields : list (string * pyval);
  fields_set : dict pyval
}.

(** [name in entity.model_dump()], [hasattr(entity, name)] *)
Definition declares (entity : Scheme) (name : string) : bool :=
  existsb (fun field => (fst field =? name)%string) (model_fields entity).

(** [entity.model_dump()] *)
Definition model_dump (entity : Scheme) : dict pyval :=
  map (fun field =>
         (fst field,
          match dict_get (fst field) (fields_set entity) with
          | Some v => v
          | None => snd field
          end))
      (model_fields entity).


(** [entity.name = v], on a declared field *)
Definition set_field (entity : Scheme) (name : string) (v : pyval) : Scheme :=
  {| model_fields := model_fields entity;
     fields_set := dict_set name v (fields_set entity) |}.

(** The current user, as far as the service reads it. *)
Record CurrentUser : Type := {
  organization_id : pyval
}.

(** What a method of the service raises: an exception of the layers
    below, or [NotFoundException()] with its default message. *)
Inductive service_exn : Type :=
| Propagated (e : exn)
| NotFoundDefault.

Inductive outcome (A : Type) : Type :=
| Returned (a : A)
| Failed (e : service_exn).
Arguments Returned {A} a.
Arguments Failed {A} e.

Section Service.

Context {Session : Type}.
Variable E : Env Session.
Variable self : Repository.

(** [self.schemas.get_response_scheme], called on the fields of a
    document; it raises [ValueError] when the validation fails. *)
Variable get_response_scheme : list (string * json) -> result json.

(** [self.schemas.get_response_scheme( **entity_data )] *)
Definition respond (entity_data : json) : result json :=
  match entity_data with
  | JObj fields => get_response_scheme fields
  | _ => Raise TypeError
  end.

(** [BaseService.get_entity_by_id]; the repository reads at its default
    [recursive_depth=4]. *)
Definition get_entity_by_id (entity_id : pyval) (session : Session)
  : outcome json :=
  match get_entity_from_db_by_id E self entity_id session 4 with
  | Raise e => Failed (Propagated e)
  | Ok JNull => Failed NotFoundDefault
  | Ok entity_data =>
      match respond entity_data with
      | Raise e => Failed (Propagated e)
      | Ok scheme => Returned scheme
      end
  end.

(** [BaseService.create_entity] *)
Definition create_entity
    (entity : Scheme) (user : option CurrentUser) (session : Session)
  : result (Session * json) :=
  let entity :=
    match user with
    | Some user =>
        if declares entity "organization_id"
        then set_field entity "organization_id" (organization_id user)
        else entity
    | None => entity
    end in
  match
    ('(session, entity_data) <-
       create_entity_in_db E self (model_dump entity) session ;;
     scheme <- respond entity_data ;;
     Ok (session, scheme))
  with
  | Raise ValueError => Raise (BadRequestException ValueError)
  | r => r
  end.


End Service.

(* ================================================================== *)
(** ** More cases *)

Module Cases.

Import Example.


(** [db] after the delete of the tag 7. *)
Definition db_without_news : Mem :=
  {| tables := dict_set "Tag" [] (tables db);
     unreachable := [];
     serial := 100 |}.


(** A response scheme that accepts every document as it is. *)
Definition any_scheme (fields : list (string * json)) : result json :=
  Ok (JObj fields).

(** A response scheme that rejects every document. *)
Definition no_scheme (fields : list (string * json)) : result json :=
  Raise ValueError.

(** A user of the organization [acme]. *)
Definition ann : CurrentUser := {| organization_id := VUuid 9 |}.

(** A scheme of users: a request that names another organization. *)
Definition user_fields : list (string * pyval) :=
  [("email", VNone); ("first_name", VNone); ("organization_id", VNone)].

Definition new_user : Scheme :=
  {| model_fields := user_fields;
     fields_set := [("email", VStr "e@f.com"); ("first_name", VStr "Eve");
                    ("organization_id", VUuid 404)] |}.

Definition user_100 : Row :=
  [("id", VInt 100); ("uuid", VUuid 101); ("email", VStr "e@f.com");
   ("first_name", VStr "Eve"); ("organization_id", VUuid 9);
   ("is_active", VNone)].

Definition db_with_eve : Mem :=
  {| tables := dict_set "User" [user_5; user_6; user_100] (tables db);
     unreachable := [];
     serial := 102 |}.

Definition user_100_document : json :=
  JObj (__object_as_dict user_100 ++ [("organization", acme_document)]).





(** A session whose rows another transaction has deleted after the
    statement that listed their ids: it lists [ids] and finds no row. *)
Definition emptied (ids : list pyval) : Env unit :=
  {| UUID := plain_UUID;
     str_of_UUID := plain_str_of_UUID;
     subclasses := registry;
     scalar_one_or_none := fun _ _ _ _ => Ok None;
     session_get := fun _ _ _ => Ok None;
     scalars_all := fun _ _ _ => Ok ids;
     execute_insert := fun _ _ _ => Raise DBAPIError;
     execute_update := fun _ _ _ _ _ => Ok tt;
     execute_delete := fun _ _ _ _ => Ok tt |}.

End Cases.

(* ================================================================== *)
(** * Properties *)

(** ** The error monad *)

Lemma bind_ok {A B} (r : result A) (k : A -> result B) (b : B) :
  bind r k = Ok b -> exists a, r = Ok a /\ k a = Ok b.
Proof.
  destruct r as [a | e]; simpl; intro H; [exists a; auto | discriminate].
Qed.

Lemma mapM_ok_Forall {A B} (f : A -> result B) (P : B -> Prop) :
  (forall x y, f x = Ok y -> P y) ->
  forall xs ys, mapM f xs = Ok ys -> Forall P ys.
Proof.
  intros Hf xs; induction xs as [| x rest IH]; simpl; intros ys H.
  - injection H as <-. constructor.
  - apply bind_ok in H as (y & Hy & H).
    apply bind_ok in H as (ys' & Hys & H).
    injection H as <-. constructor; eauto.
Qed.


(** ** Heights of documents *)

Lemma height_JObj h fields :
  fields_below h fields -> height (JObj fields) <= S h.
Proof.
  intro H. simpl. apply le_n_S. apply list_max_le.
  apply Forall_map. exact H.
Qed.

Lemma height_JList h items :
  Forall (fun j => height j <= h) items -> height (JList items) <= h.
Proof.
  intro H. simpl. apply list_max_le. apply Forall_map. exact H.
Qed.

Lemma fields_below_object_as_dict h (row : Row) :
  fields_below h (__object_as_dict row).
Proof.
  unfold fields_below, __object_as_dict. apply Forall_map.
  apply Forall_forall. intros kv _. simpl. lia.
Qed.

Lemma fields_below_dict_set h k v fields :
  height v <= h -> fields_below h fields -> fields_below h (dict_set k v fields).
Proof.
  intros Hv. induction fields as [| [k' v'] rest IH]; simpl; intro H.
  - repeat constructor. exact Hv.
  - inversion H as [| ? ? Hhd Htl]; subst.
    destruct (k' =? k)%string; constructor; simpl; auto.
    apply IH. exact Htl.
Qed.

Lemma fields_below_add_fields h adds :
  forall fields,
    fields_below h fields -> fields_below h adds ->
    fields_below h (__add_fields_to_json fields adds).
Proof.
  unfold __add_fields_to_json.
  induction adds as [| [k v] rest IH]; simpl; intros fields Hf Ha.
  - exact Hf.
  - inversion Ha as [| ? ? Hv Hrest]; subst. simpl in Hv.
    apply IH; [| exact Hrest].
    destruct v; auto using fields_below_dict_set.
Qed.

Section Expansion.

Context {Session : Type}.
Variable E : Env Session.

Lemma expand_column_below h recur column value adds :
  (forall m v j, recur m v = Ok j -> height j <= h) ->
  expand_column E recur column value = Ok adds ->
  fields_below h adds.
Proof.
  intros Hrec. unfold expand_column.
  destruct (_is_model_id_or_uuid column).
  - destruct (__get_model_by_name E _) as [m |]; intro H.
    + apply bind_ok in H as (j & Hj & H). injection H as <-.
      repeat constructor. simpl. eauto.
    + injection H as <-. constructor.
  - destruct (_is_model_ids_or_uuids column); intro H.
    + assert (Hlist : forall vals,
                 (sub_jsons <- mapM (recur (__get_model_by_name E
                      (join "_" (removelast (split "_" column)))))
                      (filter (fun val => negb (is_none val)) vals) ;;
                  Ok [((join "_" (removelast (split "_" column)) ++ "s")%string,
                       JList sub_jsons)]) = Ok adds -> fields_below h adds).
      { intros vals Hv. apply bind_ok in Hv as (subs & Hsubs & Hv).
        injection Hv as <-. repeat constructor. simpl.
        apply height_JList.
        eapply mapM_ok_Forall; [| exact Hsubs]. intros x y. apply Hrec. }
      destruct value; simpl in H;
        try discriminate; try (injection H as <-; constructor);
        eapply Hlist; exact H.
    + injection H as <-. constructor.
Qed.

Lemma expand_columns_below h recur items :
  (forall m v j, recur m v = Ok j -> height j <= h) ->
  forall adds, expand_columns E recur items = Ok adds -> fields_below h adds.
Proof.
  intros Hrec. induction items as [| [column value] rest IH]; simpl; intros adds H.
  - injection H as <-. constructor.
  - apply bind_ok in H as (a & Ha & H).
    apply bind_ok in H as (b & Hb & H). injection H as <-.
    apply Forall_app. split; [eapply expand_column_below | apply IH]; eauto.
Qed.

Lemma get_one_recursive_unfold session depth model item_id :
  __get_one_recursive E session depth model item_id =
  match __get_entity_by_id_or_uuid E session item_id model with
  | Ok (Some object_result) =>
      adds <- match depth with
              | O => Ok []
              | S d => expand_columns E (__get_one_recursive E session d) object_result
              end ;;
      Ok (JObj (__add_fields_to_json (__object_as_dict object_result) adds))
  | _ => Ok JNull
  end.
Proof.
  destruct depth; simpl;
    destruct (__get_entity_by_id_or_uuid E session item_id model) as [[row |] | e];
    reflexivity.
Qed.

Lemma height_get_one_recursive session depth :
  forall model item_id doc,
    __get_one_recursive E session depth model item_id = Ok doc ->
    height doc <= S depth.
Proof.
  induction depth as [| d IH]; intros model item_id doc H;
    rewrite get_one_recursive_unfold in H;
    destruct (__get_entity_by_id_or_uuid E session item_id model) as [[row |] | e];
    try (injection H as <-; simpl; lia).
  - simpl in H. injection H as <-. apply height_JObj.
    apply fields_below_object_as_dict.
  - apply bind_ok in H as (adds & Hadds & H). injection H as <-.
    apply height_JObj. apply fields_below_add_fields.
    + apply fields_below_object_as_dict.
    + eapply expand_columns_below; [| exact Hadds]. exact IH.
Qed.

(** C1.  The document that [__get_one_recursive] returns at depth [N]
    nests sub-documents at most [N] relationship hops deep, and at depth
    0 it is exactly the columns of the base row, none of them expanded. *)
Theorem expansion_depth_is_bounded session depth model item_id doc
    (Hdoc : __get_one_recursive E session depth model item_id = Ok doc) :
  nesting doc <= depth
  /\ __get_one_recursive E session 0 model item_id =
     match __get_entity_by_id_or_uuid E session item_id model with
     | Ok (Some row) => Ok (JObj (map (fun kv => (fst kv, JCol (snd kv))) row))
     | _ => Ok JNull
     end.
Proof.
  split.
  - apply height_get_one_recursive in Hdoc. unfold nesting. lia.
  - rewrite get_one_recursive_unfold.
    destruct (__get_entity_by_id_or_uuid E session item_id model) as [[row |] | e];
      reflexivity.
Qed.

End Expansion.

(* ================================================================== *)
(** ** Failures inside the expansion *)

Lemma mapM_raise {A B} (f : A -> result B) (xs : list A) (e : exn) :
  mapM f xs = Raise e -> exists x, In x xs /\ f x = Raise e.
Proof.
  induction xs as [| x rest IH]; simpl; [discriminate |].
  destruct (f x) as [y | e'] eqn:Hx; simpl.
  - destruct (mapM f rest) as [ys | e'']; simpl; [discriminate |].
    intro H. injection H as ->.
    destruct IH as (x' & Hin & Hx'); [reflexivity |]. eauto.
  - intro H. injection H as ->. eauto.
Qed.

Section Failures.

Context {Session : Type}.
Variable E : Env Session.


Lemma absent_row_is_null session depth model item_id :
  has_row (__get_entity_by_id_or_uuid E session item_id model) = false ->
  __get_one_recursive E session depth model item_id = Ok JNull.
Proof.
  intro H. rewrite get_one_recursive_unfold.
  destruct (__get_entity_by_id_or_uuid E session item_id model) as [[row |] | e];
    [discriminate | reflexivity | reflexivity].
Qed.

Lemma expand_column_raises recur column value e :
  (forall m v e', recur m v = Raise e' -> e' = TypeError) ->
  expand_column E recur column value = Raise e -> e = TypeError.
Proof.
  intros Hrec. unfold expand_column.
  destruct (_is_model_id_or_uuid column).
  - destruct (__get_model_by_name E _) as [m |]; [| discriminate].
    destruct (recur (Some m) value) as [j | e'] eqn:Hj; simpl; [discriminate |].
    intro H. injection H as <-. eauto.
  - destruct (_is_model_ids_or_uuids column); [| discriminate].
    assert (Hfan : forall vals,
               (sub_jsons <- mapM (recur (__get_model_by_name E
                    (join "_" (removelast (split "_" column)))))
                    (filter (fun val => negb (is_none val)) vals) ;;
                Ok [((join "_" (removelast (split "_" column)) ++ "s")%string,
                     JList sub_jsons)]) = Raise e -> e = TypeError).
    { intros vals. destruct (mapM _ _) as [subs | e'] eqn:Hsubs; simpl;
        [discriminate |].
      intro H. injection H as <-.
      apply mapM_raise in Hsubs as (x & _ & Hx). eauto. }
    destruct value; simpl; try discriminate;
      try (intro H; injection H as <-; reflexivity); apply Hfan.
Qed.

Lemma expand_columns_raises recur items e :
  (forall m v e', recur m v = Raise e' -> e' = TypeError) ->
  expand_columns E recur items = Raise e -> e = TypeError.
Proof.
  intros Hrec. induction items as [| [column value] rest IH]; simpl;
    [discriminate |].
  destruct (expand_column E recur column value) as [a | e'] eqn:Ha; simpl.
  - destruct (expand_columns E recur rest) as [b | e'']; simpl; [discriminate |].
    intro H. injection H as <-. apply IH. reflexivity.
  - intro H. injection H as <-. eapply expand_column_raises; eauto.
Qed.

(** Nothing that the session raises leaves the expander: the only
    exception it lets through comes from iterating a plural column whose
    value does not iterate. *)
Lemma only_TypeError_escapes session depth :
  forall model item_id e,
    __get_one_recursive E session depth model item_id = Raise e -> e = TypeError.
Proof.
  induction depth as [| d IH]; intros model item_id e;
    rewrite get_one_recursive_unfold;
    destruct (__get_entity_by_id_or_uuid E session item_id model) as [[row |] | e'];
    try discriminate.
  destruct (expand_columns E (__get_one_recursive E session d) row)
    as [adds | e''] eqn:Hadds; simpl; [discriminate |].
  intro H. injection H as <-.
  eapply expand_columns_raises; [| exact Hadds]. exact IH.
Qed.



End Failures.

(* ================================================================== *)
(** ** Identifiers *)

Section Identifiers.

Context {Session : Type}.
Variable E : Env Session.
Variable self : Repository.





(** The delete after the resolver: on an entity with a uuid, a string
    that is no token raises "not found" even when the resolver, by its
    integer fallback, has found the entity. *)
Lemma delete_of_resolved_non_token session s row :
  UUID E s = None ->
  hasattr (model self) "uuid" = true ->
  __get_entity_by_id_or_uuid E session (VStr s) (Some (model self))
  = Ok (Some row) ->
  delete_entity_from_db_by_id E self (VStr s) session
  = Raise (NotFoundException (InvalidUUIDFormat (VStr s))).
Proof.
  intros Htoken Huuid Hrow. unfold delete_entity_from_db_by_id.
  rewrite Hrow. simpl bind. rewrite Huuid.
  unfold str_to_UUID. rewrite Htoken. reflexivity.
Qed.

(** ** Create, then read *)

(** C2, as the code has it.  For an entity type that does not combine a
    uuid attribute with an id of type UUID, the document that create
    returns is the document that a read of the identifier returned by
    the insert yields at depth 2, the depth at which create expands. *)
Theorem create_then_read_is_same_document entity session session' doc
    (Hkind : hasattr (model self) "uuid" && id_python_type_is_UUID (model self)
             = false)
    (Hcreate : create_entity_in_db E self entity session = Ok (session', doc)) :
  exists entity_from_db_id,
    execute_insert E session (model self) entity = Ok (session', entity_from_db_id)
    /\ get_entity_from_db_by_id E self entity_from_db_id session' 2 = Ok doc.
Proof.
  unfold create_entity_in_db in Hcreate.
  apply bind_ok in Hcreate as ([] & _ & Hcreate).
  apply bind_ok in Hcreate as ([s1 id] & Hinsert & Hcreate).
  rewrite Hkind in Hcreate.
  apply bind_ok in Hcreate as (d & Hd & Hcreate).
  injection Hcreate as <- <-.
  exists id. split; [exact Hinsert |].
  unfold get_entity_from_db_by_id.
  replace (hasattr (model self) "uuid" && hasattr (model self) "id"
           && id_python_type_is_UUID (model self)) with false; [exact Hd |].
  destruct (hasattr (model self) "uuid"); simpl in *;
    [rewrite Hkind, andb_false_r |]; reflexivity.
Qed.

(** Where the type combines both, create returns the inserted row as it
    is stored, which is what a read at depth 0 returns. *)
Lemma create_returns_unexpanded_row entity session session' u row
    (Hkind : hasattr (model self) "uuid" && id_python_type_is_UUID (model self)
             = true)
    (Hid : hasattr (model self) "id" = true)
    (Hinsert : execute_insert E session (model self) entity = Ok (session', VUuid u))
    (Hrow : scalar_one_or_none E session' (model self) "id" (VUuid u)
            = Ok (Some row)) :
  create_entity_in_db E self entity session
  = Ok (session', JObj (__object_as_dict row))
  /\ get_entity_from_db_by_id E self (VUuid u) session' 0
     = Ok (JObj (__object_as_dict row)).
Proof.
  apply andb_prop in Hkind as [Huuid Htype].
  split.
  - unfold create_entity_in_db, getattr_model.
    rewrite Hid. simpl. rewrite Hinsert. simpl.
    rewrite Huuid, Htype. simpl. rewrite Hrow. reflexivity.
  - unfold get_entity_from_db_by_id. rewrite Huuid, Hid, Htype. simpl.
    unfold __get_entity_by_id_or_uuid. rewrite Huuid, Hid, Htype. simpl.
    rewrite Hrow. reflexivity.
Qed.

End Identifiers.

(* ================================================================== *)
(** ** Filters and the list operation *)

Section Filters.

Context {Session : Type}.
Variable E : Env Session.

(** C5.  On a model that has the attributes [organization_id] and
    [is_active], the mapping
    [{"organization_id": ["A", "B"], "is_active": True}] translates to
    exactly two predicates: [organization_id] in [["A", "B"]] and
    [is_active == True]. *)
Theorem filter_composition (self : Repository)
    (Horganization : hasattr (model self) "organization_id" = true)
    (Hactive : hasattr (model self) "is_active" = true) :
  _process_filters_of_query_parameters E self []
    (Some [("organization_id", VList [VStr "A"; VStr "B"]);
           ("is_active", VBool true)])
  = Ok [In_ "organization_id" (VList [VStr "A"; VStr "B"]);
        Eq "is_active" (VBool true)].
Proof.
  unfold _process_filters_of_query_parameters.
  change (py_get "user_id" _) with VNone. simpl truthy. simpl andb. cbv iota.
  unfold filters_of_params, filters_of_param, time_filter, getattr_model.
  change (_is_model_id_or_uuid "organization_id") with true.
  change (_is_model_ids_or_uuids "organization_id") with false.
  change (_is_model_id_or_uuid "is_active") with false.
  change (_is_model_ids_or_uuids "is_active") with false.
  rewrite Horganization, Hactive. reflexivity.
Qed.

(** The temporal parameters of a repository without [parse_datetime]:
    a truthy one raises before its value is looked at. *)
Lemma time_filter_without_parser m parameters name field compare :
  time_filter (BaseRepository m) parameters name field compare =
  if truthy (py_get name parameters)
  then Raise (AttributeError "parse_datetime") else Ok [].
Proof. reflexivity. Qed.

(** [BaseRepository] has no [parse_datetime]: for every non-empty string
    given as [time_start], parseable or not, the translation raises the
    [AttributeError] of the missing method, which does not mention the
    string, and the list operation of the service reports it as a bad
    request. *)
Lemma time_start_is_never_parsed
    (m : Model) (scheme : list (string * json) -> result json)
    (session : Session) (c : ascii) (rest : string) (depth : nat) :
  _process_filters_of_query_parameters E (BaseRepository m) []
    (Some [("time_start", VStr (String c rest))])
  = Raise (AttributeError "parse_datetime")
  /\ get_all_entities E (BaseRepository m) scheme session
       (Some [("time_start", VStr (String c rest))]) depth
     = Raise (BadRequestException (AttributeError "parse_datetime")).
Proof.
  assert (Hfilters :
            _process_filters_of_query_parameters E (BaseRepository m) []
              (Some [("time_start", VStr (String c rest))])
            = Raise (AttributeError "parse_datetime")).
  { unfold _process_filters_of_query_parameters.
    change (py_get "user_id" _) with VNone. simpl truthy. simpl andb. cbv iota.
    unfold filters_of_params, filters_of_param.
    change (_is_model_id_or_uuid "time_start") with false.
    change (_is_model_ids_or_uuids "time_start") with false.
    reflexivity. }
  split; [exact Hfilters |].
  unfold get_all_entities, get_all_entities_from_db, __get_all_recursive.
  rewrite Hfilters. reflexivity.
Qed.

Variable self : Repository.

(** C10.  On a non-empty mapping of query parameters from which no
    predicate comes, the list operation raises: [offset] is read before
    it is bound.  Without parameters the query carries neither [offset]
    nor [limit]. *)
Theorem pagination_without_filters_raises session parameter others depth
    (Hnofilter : _process_filters_of_query_parameters E self []
                   (Some (parameter :: others))
                 = Ok []) :
  get_all_entities_from_db E self session (Some (parameter :: others)) depth
  = Raise (UnboundLocalError "offset")
  /\ get_all_entities_from_db E self session None depth
     = (ids <- scalars_all E session (model self)
                 {| q_filters := []; q_offset := None; q_limit := None |} ;;
        mapM (__get_one_recursive E session depth (Some (model self))) ids).
Proof.
  split; [| reflexivity].
  unfold get_all_entities_from_db, __get_all_recursive.
  rewrite Hnofilter. reflexivity.
Qed.

(** The parameters [limit] and [offset] alone produce no predicate. *)
Lemma limit_and_offset_are_no_filters (limit offset : Z) :
  _process_filters_of_query_parameters E self []
    (Some [("limit", VInt limit); ("offset", VInt offset)]) = Ok [].
Proof.
  unfold _process_filters_of_query_parameters.
  change (py_get "user_id" _) with VNone. simpl truthy. simpl andb. cbv iota.
  unfold filters_of_params, filters_of_param, time_filter.
  change (_is_model_id_or_uuid "limit") with false.
  change (_is_model_ids_or_uuids "limit") with false.
  change (_is_model_id_or_uuid "offset") with false.
  change (_is_model_ids_or_uuids "offset") with false.
  reflexivity.
Qed.

(** Nor does either of them alone. *)
Lemma limit_alone_is_no_filter (name : string) (count : Z) :
  name = "limit" \/ name = "offset" ->
  _process_filters_of_query_parameters E self [] (Some [(name, VInt count)])
  = Ok [].
Proof.
  intros [-> | ->];
    unfold _process_filters_of_query_parameters;
    change (py_get "user_id" _) with VNone; simpl truthy; simpl andb; cbv iota;
    unfold filters_of_params, filters_of_param, time_filter;
    reflexivity.
Qed.

End Filters.

(* ================================================================== *)
(** ** Dictionaries *)

Lemma dict_get_set_same {V} k (v : V) d : dict_get k (dict_set k v d) = Some v.
Proof.
  induction d as [| [k' v'] rest IH]; simpl.
  - rewrite String.eqb_refl. reflexivity.
  - destruct (k' =? k)%string eqn:Hk; simpl; rewrite Hk; auto.
Qed.

Lemma dict_get_set_other {V} k k' (v : V) d :
  k <> k' -> dict_get k (dict_set k' v d) = dict_get k d.
Proof.
  intro Hne. induction d as [| [k0 v0] rest IH]; simpl.
  - destruct (k' =? k)%string eqn:Hk; [| reflexivity].
    apply String.eqb_eq in Hk. congruence.
  - destruct (k0 =? k')%string eqn:Hk0; simpl.
    + apply String.eqb_eq in Hk0. subst k0.
      destruct (k' =? k)%string eqn:Hk; [| reflexivity].
      apply String.eqb_eq in Hk. congruence.
    + destruct (k0 =? k)%string; auto.
Qed.

Lemma dict_get_absent {V} k (d : dict V) :
  ~ In k (map fst d) -> dict_get k d = None.
Proof.
  induction d as [| [k' v'] rest IH]; simpl; intro H; [reflexivity |].
  destruct (k' =? k)%string eqn:Hk.
  - apply String.eqb_eq in Hk. tauto.
  - apply IH. tauto.
Qed.

Lemma keys_of_filter {V} (f : string * V -> bool) k d :
  In k (map fst (filter f d)) -> In k (map fst d).
Proof.
  intro H. apply in_map_iff in H as (kv & Hk & Hin).
  apply filter_In in Hin as [Hin _]. apply in_map_iff. eauto.
Qed.

Lemma NoDup_keys_filter {V} (f : string * V -> bool) d :
  NoDup (map fst d) -> NoDup (map fst (filter f d)).
Proof.
  induction d as [| kv rest IH]; simpl; intro H; [constructor |].
  inversion H as [| ? ? Hnotin Hrest]; subst.
  destruct (f kv); simpl; auto.
  constructor; auto. intro Hin. apply Hnotin. eapply keys_of_filter. exact Hin.
Qed.


(** What [SET] leaves in a row. *)
Lemma dict_get_patch k values :
  NoDup (map fst values) ->
  forall row,
    dict_get k (patch values row) =
    match dict_get k values with
    | Some v => Some v
    | None => dict_get k row
    end.
Proof.
  unfold patch.
  induction values as [| [k' v'] rest IH]; simpl; intros H row; [reflexivity |].
  inversion H as [| ? ? Hnotin Hrest]; subst.
  rewrite (IH Hrest).
  destruct (k' =? k)%string eqn:Hk.
  - apply String.eqb_eq in Hk. subst k'.
    rewrite (dict_get_absent _ _ Hnotin). apply dict_get_set_same.
  - destruct (dict_get k rest); [reflexivity |].
    apply dict_get_set_other. intro Heq. subst.
    rewrite String.eqb_refl in Hk. discriminate.
Qed.


Lemma known_columns_non_null m entity :
  known_columns m entity = true -> known_columns m (non_null_fields entity) = true.
Proof.
  unfold known_columns, non_null_fields. rewrite !forallb_forall.
  intros H kv Hin. apply H. apply filter_In in Hin. tauto.
Qed.

(* ================================================================== *)
(** ** The in-memory session *)

Lemma rows_of_set_rows db m rows : rows_of (set_rows db m rows) m = rows.
Proof. unfold rows_of, set_rows. simpl. rewrite dict_get_set_same. reflexivity. Qed.

Lemma rows_of_set_rows_other db m m' rows :
  class_name m' <> class_name m -> rows_of (set_rows db m rows) m' = rows_of db m'.
Proof.
  intro H. unfold rows_of, set_rows. simpl.
  rewrite dict_get_set_other by exact H. reflexivity.
Qed.

Lemma filter_singleton {A} (f : A -> bool) l x :
  filter f l = [x] ->
  In x l /\ f x = true /\ forall y, In y l -> f y = true -> y = x.
Proof.
  intro H.
  assert (Hx : In x (filter f l)) by (rewrite H; simpl; auto).
  apply filter_In in Hx as [Hin Hfx]. repeat split; auto.
  intros y Hy Hfy.
  assert (Hy' : In y (filter f l)) by (apply filter_In; auto).
  rewrite H in Hy'. destruct Hy' as [<- | []]. reflexivity.
Qed.

Lemma mem_scalar_one_found db m column key found :
  mem_scalar_one_or_none db m column key = Ok (Some found) ->
  round_trip db m = Ok tt
  /\ exists bound,
       bind_parameter (column_type m column) key = Ok bound
       /\ filter (matches column bound) (rows_of db m) = [found].
Proof.
  unfold mem_scalar_one_or_none. intro H.
  apply bind_ok in H as ([] & Hup & H). split; [exact Hup |].
  apply bind_ok in H as (bound & Hbound & H). exists bound. split; [exact Hbound |].
  destruct (filter (matches column bound) (rows_of db m)) as [| r [| r' rest]];
    try discriminate.
  injection H as <-. reflexivity.
Qed.


Section Update.

Variable registry : list Model.
Variable self : Repository.

Let E : Env Mem := mem_env registry.

(** The first block of the update leaves an identifier on which its
    conversions do nothing more, and has found the entity by the key
    column. *)
Lemma update_lookup_found entity_id db key found :
  update_lookup E self entity_id db = Ok (key, Some found) ->
  mem_scalar_one_or_none db (model self) (update_key_column self) key
  = Ok (Some found)
  /\ (if hasattr (model self) "uuid"
      then str_to_UUID E key = Ok key
      else digits_to_int key = key).
Proof.
  unfold update_lookup, update_key_column.
  destruct (hasattr (model self) "uuid").
  - destruct (str_to_UUID E entity_id) as [k |] eqn:Hk; [| discriminate].
    simpl scalar_one_or_none.
    destruct (mem_scalar_one_or_none db (model self) "uuid" k)
      as [r | e] eqn:Hr; [| destruct e; discriminate].
    intro H. injection H as <- <-. split; [exact Hr |].
    destruct entity_id; simpl in Hk; try (injection Hk as <-; reflexivity).
    destruct (plain_UUID s); [injection Hk as <-; reflexivity | discriminate].
  - simpl session_get.
    destruct (mem_scalar_one_or_none db (model self) "id" (digits_to_int entity_id))
      as [r | e] eqn:Hr; [| discriminate].
    simpl. intro H. injection H as <- <-. split; [exact Hr |].
    destruct entity_id; try reflexivity.
    simpl. destruct (isdigit s) eqn:Hs; simpl; [reflexivity | rewrite Hs; reflexivity].
Qed.

(** What the update does to the session, row by row. *)
Lemma update_effect entity_id entity db key found
    (Hcolumns : known_columns (model self) entity = true)
    (Hid : hasattr (model self) "id" = true)
    (Hfound : update_lookup E self entity_id db = Ok (key, Some found)) :
  exists db' bound,
    bind_parameter (column_type (model self) (update_key_column self)) key
    = Ok bound
    /\ filter (matches (update_key_column self) bound) (rows_of db (model self))
       = [found]
    /\ round_trip db' (model self) = Ok tt
    /\ update_entity_in_db E self entity_id entity db
       = (doc <- __get_one_recursive E db' 2 (Some (model self)) key ;;
          Ok (db', doc))
    /\ rows_of db' (model self)
       = map (fun row =>
                if matches (update_key_column self) bound row
                then patch (non_null_fields entity) row else row)
             (rows_of db (model self))
    /\ (forall other,
          class_name other <> class_name (model self) ->
          rows_of db' other = rows_of db other).
Proof.
  destruct (update_lookup_found _ _ _ _ Hfound) as [Hrow Hkey].
  destruct (mem_scalar_one_found _ _ _ _ _ Hrow)
    as (Hup & bound & Hbound & Hfilter).
  unfold update_entity_in_db. rewrite Hfound. simpl bind at 1. cbv beta iota.
  destruct (non_null_fields entity) as [| field fields] eqn:Hdata.
  - exists db, bound. repeat split; auto.
    rewrite <- (map_id (rows_of db (model self))) at 1.
    apply map_ext. intro row.
    destruct (matches (update_key_column self) bound row); reflexivity.
  - rewrite <- Hdata.
    set (db' := set_rows db (model self)
                  (map (fun row =>
                          if matches (update_key_column self) bound row
                          then patch (non_null_fields entity) row else row)
                       (rows_of db (model self)))).
    assert (Hstatement :
              update_statement E self key (non_null_fields entity) db
              = Ok (key, db')).
    { unfold update_statement, update_key_column in *.
      destruct (hasattr (model self) "uuid").
      - rewrite Hkey. simpl execute_update. unfold mem_update.
        rewrite Hup. simpl bind.
        rewrite (known_columns_non_null _ _ Hcolumns), Hbound. reflexivity.
      - rewrite Hkey. unfold getattr_model. rewrite Hid.
        simpl. unfold mem_update.
        rewrite Hup. simpl bind.
        rewrite (known_columns_non_null _ _ Hcolumns), Hbound. reflexivity. }
    exists db', bound. rewrite Hstatement. simpl bind at 1. cbv beta iota.
    repeat split; auto.
    + unfold db'. apply rows_of_set_rows.
    + intros other Hne. unfold db'. apply rows_of_set_rows_other. exact Hne.
Qed.


Lemma matches_patch column bound values row :
  NoDup (map fst values) ->
  dict_get column values = None ->
  matches column bound (patch values row) = matches column bound row.
Proof.
  intros Hdict Hkey. unfold matches, py_get.
  rewrite (dict_get_patch _ _ Hdict), Hkey. reflexivity.
Qed.

(** Unless the payload assigns the key column, or the model combines a
    uuid attribute with an id of type UUID, the entity that the update
    reads again for its result is the patched one. *)
Lemma update_returns_patched_entity entity_id entity db key found
    (Hdict : NoDup (map fst entity))
    (Hcolumns : known_columns (model self) entity = true)
    (Hid : hasattr (model self) "id" = true)
    (Hkind : hasattr (model self) "uuid" && id_python_type_is_UUID (model self)
             = false)
    (Hkeycol : dict_get (update_key_column self) (non_null_fields entity) = None)
    (Hfound : update_lookup E self entity_id db = Ok (key, Some found)) :
  exists db',
    update_entity_in_db E self entity_id entity db
    = (doc <- __get_one_recursive E db' 2 (Some (model self)) key ;;
       Ok (db', doc))
    /\ __get_entity_by_id_or_uuid E db' key (Some (model self))
       = Ok (Some (patch (non_null_fields entity) found)).
Proof.
  destruct (update_lookup_found _ _ _ _ Hfound) as [_ Hkey].
  destruct (update_effect _ _ _ _ _ Hcolumns Hid Hfound)
    as (db' & bound & Hbound & Hfilter & Hup & Hreturn & Hrows & _).
  exists db'. split; [exact Hreturn |].
  assert (Hunique : NoDup (map fst (non_null_fields entity)))
    by (apply NoDup_keys_filter; exact Hdict).
  assert (Hselect :
            mem_scalar_one_or_none db' (model self) (update_key_column self) key
            = Ok (Some (patch (non_null_fields entity) found))).
  { unfold mem_scalar_one_or_none. rewrite Hup, Hbound. simpl bind.
    rewrite Hrows, filter_map_swap.
    rewrite (filter_ext _ (matches (update_key_column self) bound)).
    - rewrite Hfilter. simpl.
      destruct (filter_singleton _ _ _ Hfilter) as (_ & -> & _). reflexivity.
    - intro row.
      destruct (matches (update_key_column self) bound row) eqn:Hm;
        [rewrite (matches_patch _ _ _ _ Hunique Hkeycol) |]; exact Hm. }
  unfold __get_entity_by_id_or_uuid. rewrite Hid.
  unfold update_key_column in *.
  destruct (hasattr (model self) "uuid"); simpl in Hkind |- *.
  - rewrite Hkind.
    destruct key; simpl in Hbound; try discriminate; try exact Hselect.
    simpl in Hkey. destruct (plain_UUID s); discriminate.
  - rewrite Hkey. unfold getattr_model. rewrite Hid. exact Hselect.
Qed.

End Update.

(* ================================================================== *)
(** ** The statements on the example data *)

Import Example.

(** [user_5], one hop deep. *)
Lemma expansion_depth_is_bounded_witness :
  nesting user_5_document <= 1
  /\ __get_one_recursive env db 0 (Some User) (VInt 5)
     = Ok (JObj (map (fun kv => (fst kv, JCol (snd kv))) user_5)).
Proof.
  apply (expansion_depth_is_bounded env db 1 (Some User) (VInt 5) user_5_document).
  vm_compute. reflexivity.
Defined.

(** A tag has neither a uuid nor references: create and read agree. *)
Lemma create_then_read_is_same_document_witness :
  exists entity_from_db_id,
    execute_insert env db Tag sport_payload = Ok (db_with_sport, entity_from_db_id)
    /\ get_entity_from_db_by_id env (BaseRepository Tag) entity_from_db_id
         db_with_sport 2
       = Ok (JObj (__object_as_dict sport)).
Proof.
  apply (create_then_read_is_same_document env (BaseRepository Tag)
           sport_payload db db_with_sport (JObj (__object_as_dict sport))).
  - vm_compute. reflexivity.
  - vm_compute. reflexivity.
Defined.

(** C2 fails as stated: a ticket has a uuid and an id of type UUID, and what
    create returns for it lacks the organization that the read at the depth
    of create expands. *)
Lemma create_then_read_differs_on_ticket :
  create_entity_in_db env (BaseRepository Ticket) ticket_payload db
  = Ok (db_with_ticket, JObj (__object_as_dict ticket_100))
  /\ returned_id (JObj (__object_as_dict ticket_100)) = VUuid 100
  /\ get_entity_from_db_by_id env (BaseRepository Ticket) (VUuid 100)
       db_with_ticket 2
     = Ok (JObj (__object_as_dict ticket_100 ++ [("organization", acme_document)]))
  /\ JObj (__object_as_dict ticket_100 ++ [("organization", acme_document)])
     <> JObj (__object_as_dict ticket_100).
Proof.
  repeat split; try (vm_compute; reflexivity).
  vm_compute. discriminate.
Qed.





Lemma filter_composition_witness :
  _process_filters_of_query_parameters env (BaseRepository User) []
    (Some [("organization_id", VList [VStr "A"; VStr "B"]);
           ("is_active", VBool true)])
  = Ok [In_ "organization_id" (VList [VStr "A"; VStr "B"]);
        Eq "is_active" (VBool true)].
Proof.
  apply (filter_composition env (BaseRepository User)).
  - vm_compute. reflexivity.
  - vm_compute. reflexivity.
Defined.

(** C6 at failing inputs.  On the repository of organizations, which
    inherits the translation and the list operation, the unparseable
    [not-a-date] and the parseable [2024-01-01] as [time_start] raise one
    and the same error, the missing [parse_datetime], in the translation;
    the service reports it as a bad request that does not name the value;
    and the unparseable empty string is skipped, so the list operation
    succeeds. *)
Theorem unparseable_time_start_on_organizations :
  _process_filters_of_query_parameters env (BaseRepository Organization) []
    (Some [("time_start", VStr "not-a-date")])
  = Raise (AttributeError "parse_datetime")
  /\ _process_filters_of_query_parameters env (BaseRepository Organization) []
       (Some [("time_start", VStr "2024-01-01")])
     = Raise (AttributeError "parse_datetime")
  /\ get_all_entities env (BaseRepository Organization)
       (fun fields => Ok (JObj fields)) db
       (Some [("time_start", VStr "not-a-date")]) 0
     = Raise (BadRequestException (AttributeError "parse_datetime"))
  /\ get_all_entities env (BaseRepository Organization)
       (fun fields => Ok (JObj fields)) db
       (Some [("is_configured", VBool true); ("time_start", VStr EmptyString)]) 0
     = Ok [acme_document].
Proof. repeat split; vm_compute; reflexivity. Qed.



(** The same scenario, evaluated: the e-mail is set, the first name stays. *)
Lemma update_scenario_evaluated :
  exists db',
    update_entity_in_db env (BaseRepository User) (VStr user_5_uuid)
      partial_payload db
    = Ok (db', JObj (__object_as_dict user_5_patched
                      ++ [("organization", acme_document)]))
    /\ rows_of db' User = [user_5_patched; user_6].
Proof. eexists. split; vm_compute; reflexivity. Qed.

(** C8 at failing inputs.  [user_5] is present and the resolver finds it
    by its integer id, given as a string or as an integer; the delete then
    addresses the row by uuid with that identifier: for the string it
    raises "not found", for the integer the round trip fails.  Nothing is
    deleted. *)
Theorem delete_of_present_user_by_integer_id :
  __get_entity_by_id_or_uuid env db (VStr "5") (Some User) = Ok (Some user_5)
  /\ delete_entity_from_db_by_id env (BaseRepository User) (VStr "5") db
     = Raise (NotFoundException (InvalidUUIDFormat (VStr "5")))
  /\ __get_entity_by_id_or_uuid env db (VInt 5) (Some User) = Ok (Some user_5)
  /\ delete_entity_from_db_by_id env (BaseRepository User) (VInt 5) db
     = Raise DBAPIError.
Proof. repeat split; vm_compute; reflexivity. Qed.

(** By its uuid the same user is deleted, and is not found a second time. *)
Lemma delete_of_present_user_by_uuid :
  exists db',
    delete_entity_from_db_by_id env (BaseRepository User) (VStr user_5_uuid) db
    = Ok (db', JSONResponse 204)
    /\ rows_of db' User = [user_6]
    /\ delete_entity_from_db_by_id env (BaseRepository User) (VStr user_5_uuid) db'
       = Raise (NotFoundException (EntityNotFound (VStr user_5_uuid))).
Proof. eexists. repeat split; vm_compute; reflexivity. Qed.



(** [limit] and [offset] alone, on the repository of organizations. *)
Lemma pagination_without_filters_raises_witness :
  get_all_entities_from_db env (BaseRepository Organization) db
    (Some [("limit", VInt 10); ("offset", VInt 2)]) 4
  = Raise (UnboundLocalError "offset")
  /\ get_all_entities_from_db env (BaseRepository Organization) db None 4
     = (ids <- scalars_all env db Organization
                 {| q_filters := []; q_offset := None; q_limit := None |} ;;
        mapM (__get_one_recursive env db 4 (Some Organization)) ids).
Proof.
  apply (pagination_without_filters_raises env (BaseRepository Organization) db
           ("limit", VInt 10) [("offset", VInt 2)] 4).
  vm_compute. reflexivity.
Defined.

(** With a predicate in the mapping the pagination is read: of the two
    tags that the filter selects, the limit keeps the first. *)
Lemma limit_with_a_filter_is_honored :
  get_all_entities_from_db env (BaseRepository Tag) db_with_sport
    (Some [("id", VList [VInt 7; VInt 100]); ("limit", VInt 1)]) 0
  = Ok [JObj (__object_as_dict news)]
  /\ get_all_entities_from_db env (BaseRepository Tag) db_with_sport
       (Some [("id", VList [VInt 7; VInt 100])]) 0
     = Ok [JObj (__object_as_dict news); JObj (__object_as_dict sport)].
Proof. repeat split; vm_compute; reflexivity. Qed.

(* ================================================================== *)
(** ** The naming convention *)

Lemma substring_suffix n :
  forall s, n <= String.length s ->
    exists p, s = (p ++ substring n (String.length s - n) s)%string.
Proof.
  induction n as [| n IH]; intros s Hn.
  - exists EmptyString. simpl. rewrite Nat.sub_0_r.
    clear Hn. induction s as [| c s IHs]; simpl; [reflexivity |].
    f_equal. exact IHs.
  - destruct s as [| c s]; simpl in Hn; [lia |].
    destruct (IH s) as (p & Hp); [lia |].
    exists (String c p). simpl. f_equal. exact Hp.
Qed.

Lemma endswith_suffix s suffix :
  endswith s suffix = true -> exists p, s = (p ++ suffix)%string.
Proof.
  unfold endswith. intro H. apply andb_prop in H as [Hlen Heq].
  apply Nat.leb_le in Hlen. apply String.eqb_eq in Heq.
  destruct (substring_suffix (String.length s - String.length suffix) s)
    as (p & Hp); [lia |].
  exists p. rewrite Hp at 1. f_equal.
  replace (String.length s - (String.length s - String.length suffix))
    with (String.length suffix) by lia.
  exact Heq.
Qed.

Lemma last_char_append p c rest :
  last_char (p ++ String c rest) = last_char (String c rest).
Proof.
  induction p as [| a p IH]; [reflexivity |].
  simpl append. change (last_char (String a (p ++ String c rest)))
    with (match (p ++ String c rest)%string with
          | EmptyString => Some a
          | _ => last_char (p ++ String c rest)
          end).
  destruct (p ++ String c rest)%string eqn:Happ; [| exact IH].
  destruct p; discriminate.
Qed.

Lemma endswith_last_char s c rest :
  endswith s (String c rest) = true ->
  last_char s = last_char (String c rest).
Proof.
  intro H. apply endswith_suffix in H as (p & ->). apply last_char_append.
Qed.

(** X1.  The two conventions exclude each other: a name that reads as plural
    ([..ids], [..uuids]) never reads as singular ([..id], [..uuid]). *)
Theorem plural_name_is_not_singular column_name
    (Hplural : _is_model_ids_or_uuids column_name = true) :
  _is_model_id_or_uuid column_name = false.
Proof.
  assert (Hs : last_char column_name = Some "s"%char).
  { unfold _is_model_ids_or_uuids in Hplural.
    apply orb_prop in Hplural as [H | H];
      apply endswith_last_char in H; exact H. }
  unfold _is_model_id_or_uuid.
  destruct (endswith column_name "id") eqn:Hid.
  - apply endswith_last_char in Hid. rewrite Hs in Hid. discriminate.
  - destruct (endswith column_name "uuid") eqn:Huuid; [| reflexivity].
    apply endswith_last_char in Huuid. rewrite Hs in Huuid. discriminate.
Qed.

Lemma plural_name_is_not_singular_witness :
  _is_model_id_or_uuid "tag_ids" = false.
Proof.
  apply (plural_name_is_not_singular "tag_ids"). vm_compute. reflexivity.
Defined.

Section Registry.

Context {Session : Type}.
Variable E : Env Session.

(** X2.  The registry lookup: a model it returns is a registered class whose
    name is the camel case of the requested name, and it returns one
    whenever a registered class has that name. *)
Theorem get_model_by_name_is_lookup_by_camel_case model_name :
  match __get_model_by_name E model_name with
  | Some cls =>
      In cls (subclasses E) /\ class_name cls = camel_case model_name
  | None =>
      forall cls, In cls (subclasses E) ->
                  class_name cls <> camel_case model_name
  end.
Proof.
  unfold __get_model_by_name. fold (camel_case model_name).
  destruct (find _ (rev (subclasses E))) as [cls |] eqn:Hfind.
  - apply find_some in Hfind as [Hin Hname].
    apply in_rev in Hin. apply String.eqb_eq in Hname. auto.
  - intros cls Hin Hname.
    apply in_rev in Hin.
    pose proof (find_none _ _ Hfind cls Hin) as Hno. simpl in Hno.
    apply String.eqb_neq in Hno. contradiction.
Qed.

End Registry.

(* ================================================================== *)
(** ** The shape of the documents *)



Section Documents.

Context {Session : Type}.
Variable E : Env Session.


(** X4.  Whether the expander finds the entity does not depend on the depth:
    it returns nothing at one depth exactly when it returns nothing at
    any other. *)
Theorem absence_does_not_depend_on_depth session depth depth' model item_id :
  __get_one_recursive E session depth model item_id = Ok JNull
  <-> __get_one_recursive E session depth' model item_id = Ok JNull.
Proof.
  assert (Hnull : forall d,
             __get_one_recursive E session d model item_id = Ok JNull
             <-> has_row (__get_entity_by_id_or_uuid E session item_id model)
                 = false).
  { intro d. split.
    - rewrite get_one_recursive_unfold.
      destruct (__get_entity_by_id_or_uuid E session item_id model)
        as [[row |] | e]; try reflexivity.
      intro H. apply bind_ok in H as (adds & _ & H). discriminate.
    - apply absent_row_is_null. }
  rewrite (Hnull depth), (Hnull depth'). tauto.
Qed.

Lemma expand_columns_of_leaf_row recur row :
  leaf_row E row = true -> expand_columns E recur row = Ok [].
Proof.
  induction row as [| [column value] rest IH]; simpl; [reflexivity |].
  intro H. apply andb_prop in H as [Hhere Hrest]. simpl in Hhere.
  rewrite (IH Hrest).
  unfold expand_column.
  destruct (_is_model_id_or_uuid column).
  - destruct (__get_model_by_name E _); [discriminate | reflexivity].
  - destruct (_is_model_ids_or_uuids column); [| reflexivity].
    destruct value; try discriminate. reflexivity.
Qed.

(** X5.  An entity none of whose columns starts an expansion has the same
    document at every depth: its columns as they are stored. *)
Theorem leaf_entity_is_the_same_at_every_depth
    session depth model item_id row
    (Hrow : __get_entity_by_id_or_uuid E session item_id model = Ok (Some row))
    (Hleaf : leaf_row E row = true) :
  __get_one_recursive E session depth model item_id
  = Ok (JObj (__object_as_dict row)).
Proof.
  rewrite get_one_recursive_unfold, Hrow.
  destruct depth as [| d]; [reflexivity |].
  rewrite (expand_columns_of_leaf_row _ _ Hleaf). reflexivity.
Qed.

End Documents.

Import Example.


Lemma leaf_entity_is_the_same_at_every_depth_witness :
  __get_one_recursive env db 7 (Some Tag) (VInt 7)
  = Ok (JObj (__object_as_dict news)).
Proof.
  apply (leaf_entity_is_the_same_at_every_depth env db 7 (Some Tag) (VInt 7) news).
  - vm_compute. reflexivity.
  - vm_compute. reflexivity.
Defined.

(* ================================================================== *)
(** ** Edges of the update *)

Section UpdateEdges.

Context {Session : Type}.
Variable E : Env Session.
Variable self : Repository.

(** X6.  An update whose payload carries no value other than [None] issues
    no statement: when it returns, the session is the one it was given. *)
Theorem update_without_values_writes_nothing
    entity_id entity session session' doc
    (Hempty : non_null_fields entity = [])
    (Hupdate : update_entity_in_db E self entity_id entity session
               = Ok (session', doc)) :
  session' = session.
Proof.
  unfold update_entity_in_db in Hupdate.
  apply bind_ok in Hupdate as ([key found] & _ & Hupdate).
  destruct found as [row |]; [| discriminate].
  rewrite Hempty in Hupdate.
  apply bind_ok in Hupdate as (d & _ & Hupdate).
  injection Hupdate as <- _. reflexivity.
Qed.

(** X7.  On a model with a uuid, the update takes a string for a token only:
    any other string, digits included, raises "not found" before the
    session is asked anything. *)
Theorem update_by_non_token_is_not_found entity_id_string entity session
    (Huuid : hasattr (model self) "uuid" = true)
    (Htoken : UUID E entity_id_string = None) :
  update_entity_in_db E self (VStr entity_id_string) entity session
  = Raise (NotFoundException (InvalidUUIDFormat (VStr entity_id_string))).
Proof.
  unfold update_entity_in_db, update_lookup.
  rewrite Huuid. unfold str_to_UUID. rewrite Htoken. reflexivity.
Qed.

End UpdateEdges.

(* ================================================================== *)
(** ** More on the filters and on the list operation *)

Section FilterEdges.

Context {Session : Type}.
Variable E : Env Session.
Variable self : Repository.




(** X9.  With predicates and with both [offset] and [limit] non-zero
    integers, the query skips [offset * limit] rows and carries no
    limit. *)
Theorem page_offset_drops_the_limit
    session parameters depth filter filters limit offset
    (Hfilters : _process_filters_of_query_parameters E self [] (Some parameters)
                = Ok (filter :: filters))
    (Hlimit : py_get "limit" parameters = VInt limit)
    (Hoffset : py_get "offset" parameters = VInt offset)
    (Hpage : (limit =? 0)%Z = false)
    (Hskip : (offset =? 0)%Z = false) :
  get_all_entities_from_db E self session (Some parameters) depth
  = (ids <- scalars_all E session (model self)
              {| q_filters := filter :: filters;
                 q_offset := Some (VInt (offset * limit));
                 q_limit := None |} ;;
     mapM (__get_one_recursive E session depth (Some (model self))) ids).
Proof.
  unfold get_all_entities_from_db, __get_all_recursive.
  destruct parameters as [| p rest]; [discriminate |].
  rewrite Hfilters. simpl bind at 2. cbv iota beta.
  rewrite Hlimit, Hoffset. unfold paginate, read_local. simpl.
  rewrite Hpage, Hskip. reflexivity.
Qed.

(** X10.  With predicates and without [limit] and [offset] the query carries
    the predicates alone, and nothing is read unbound. *)
Theorem filters_without_pagination
    session parameters depth filter filters
    (Hfilters : _process_filters_of_query_parameters E self [] (Some parameters)
                = Ok (filter :: filters))
    (Hlimit : dict_get "limit" parameters = None)
    (Hoffset : dict_get "offset" parameters = None) :
  get_all_entities_from_db E self session (Some parameters) depth
  = (ids <- scalars_all E session (model self)
              {| q_filters := filter :: filters;
                 q_offset := None;
                 q_limit := None |} ;;
     mapM (__get_one_recursive E session depth (Some (model self))) ids).
Proof.
  unfold get_all_entities_from_db, __get_all_recursive.
  destruct parameters as [| p rest]; [discriminate |].
  rewrite Hfilters. simpl bind at 2. cbv iota beta.
  unfold py_get. rewrite Hlimit, Hoffset. reflexivity.
Qed.

End FilterEdges.

(* ================================================================== *)
(** ** Delete on the in-memory session *)

Lemma filter_out_then_in {A} (f : A -> bool) l :
  filter f (filter (fun x => negb (f x)) l) = [].
Proof.
  induction l as [| x rest IH]; simpl; [reflexivity |].
  destruct (f x) eqn:Hx; simpl; [exact IH | rewrite Hx; exact IH].
Qed.

Lemma round_trip_set_rows db m rows :
  round_trip (set_rows db m rows) m = round_trip db m.
Proof. reflexivity. Qed.

(** What a delete statement leaves of a table in which the key selects
    one row. *)
Lemma mem_delete_effect db db' m column key deleted :
  mem_scalar_one_or_none db m column key = Ok (Some deleted) ->
  mem_delete db m column key = Ok db' ->
  mem_scalar_one_or_none db' m column key = Ok None
  /\ ~ In deleted (rows_of db' m)
  /\ (forall row, In row (rows_of db' m) -> In row (rows_of db m))
  /\ (forall row, In row (rows_of db m) -> row <> deleted ->
                  In row (rows_of db' m))
  /\ (forall other, class_name other <> class_name m ->
                    rows_of db' other = rows_of db other).
Proof.
  intros Hfound Hdelete.
  destruct (mem_scalar_one_found _ _ _ _ _ Hfound)
    as (Hup & bound & Hbound & Hfilter).
  destruct (filter_singleton _ _ _ Hfilter) as (Hin & Hmatch & Hunique).
  unfold mem_delete in Hdelete. rewrite Hup, Hbound in Hdelete.
  simpl in Hdelete. injection Hdelete as <-.
  repeat split.
  - unfold mem_scalar_one_or_none.
    rewrite round_trip_set_rows, Hup, Hbound. simpl bind.
    rewrite rows_of_set_rows, filter_out_then_in. reflexivity.
  - rewrite rows_of_set_rows. intro H. apply filter_In in H as [_ H].
    rewrite Hmatch in H. discriminate.
  - intros row H. rewrite rows_of_set_rows in H.
    apply filter_In in H. tauto.
  - intros row H Hne. rewrite rows_of_set_rows. apply filter_In.
    split; [exact H |].
    destruct (matches column bound row) eqn:Hm; [| reflexivity].
    elim Hne. auto.
  - intros other Hne. apply rows_of_set_rows_other. exact Hne.
Qed.

Section Delete.

Variable registry : list Model.
Variable self : Repository.

Let E : Env Mem := mem_env registry.

(** The key by which a successful delete has both found and removed the
    entity, unless the model combines a uuid with an id of type UUID. *)
Lemma delete_key entity_id db db' answer
    (Hkind : hasattr (model self) "uuid" && id_python_type_is_UUID (model self)
             = false)
    (Hdelete : delete_entity_from_db_by_id E self entity_id db
               = Ok (db', answer)) :
  answer = JSONResponse 204
  /\ exists column key deleted,
       mem_scalar_one_or_none db (model self) column key = Ok (Some deleted)
       /\ mem_delete db (model self) column key = Ok db'
       /\ __get_entity_by_id_or_uuid E db entity_id (Some (model self))
          = Ok (Some deleted)
       /\ (mem_scalar_one_or_none db' (model self) column key = Ok None ->
           delete_entity_from_db_by_id E self entity_id db'
           = Raise (NotFoundException (EntityNotFound entity_id))).
Proof.
  unfold delete_entity_from_db_by_id in *.
  destruct (__get_entity_by_id_or_uuid E db entity_id (Some (model self)))
    as [[deleted |] | e] eqn:Hresolve; try discriminate.
  simpl bind in Hdelete.
  unfold __get_entity_by_id_or_uuid in *.
  destruct (hasattr (model self) "uuid") eqn:Huuid; simpl in Hkind.
  - rewrite Hkind in *.
    destruct (hasattr (model self) "id") eqn:Hid; simpl in Hresolve |- *.
    + destruct entity_id as [| b | z | s | u | t | l];
        simpl in Hdelete, Hresolve |- *;
        try (destruct (plain_UUID s) as [u |] eqn:Hs; [| discriminate]);
        match type of Hdelete with
        | context [mem_delete db (model self) "uuid" ?k] =>
            destruct (mem_delete db (model self) "uuid" k)
              as [d |] eqn:Hstatement;
            [| destruct e; discriminate];
            injection Hdelete as <- <-;
            (split; [reflexivity |]);
            try (unfold mem_delete in Hstatement;
                 destruct (round_trip db (model self)); simpl in Hstatement;
                 discriminate);
            exists "uuid", k, deleted
        end.
      * repeat split; auto. intros ->. reflexivity.
      * destruct (mem_scalar_one_or_none db (model self) "uuid" (VUuid u))
          as [r |] eqn:Hr; [| destruct e; discriminate].
        repeat split; auto. intros ->. reflexivity.
      * repeat split; auto. intros ->. reflexivity.
    + unfold getattr_model in Hresolve. rewrite Hid in Hresolve. discriminate.
  - simpl in Hresolve |- *. unfold getattr_model in *.
    destruct (hasattr (model self) "id") eqn:Hid; [| discriminate].
    simpl in Hresolve, Hdelete |- *.
    destruct (mem_delete db (model self) "id" (digits_to_int entity_id))
      as [d |] eqn:Hstatement; [| discriminate].
    injection Hdelete as <- <-. split; [reflexivity |].
    exists "id", (digits_to_int entity_id), deleted.
    repeat split; auto. intros ->. reflexivity.
Qed.

(** X11.  A delete that succeeds answers 204 and has removed the entity that
    the identifier resolves to, and no other row; the same delete again
    raises "not found".  This holds for every model that does not
    combine a uuid attribute with an id of type UUID. *)
Theorem delete_then_delete_is_not_found entity_id db db' answer
    (Hkind : hasattr (model self) "uuid" && id_python_type_is_UUID (model self)
             = false)
    (Hdelete : delete_entity_from_db_by_id E self entity_id db
               = Ok (db', answer)) :
  answer = JSONResponse 204
  /\ (exists deleted,
        __get_entity_by_id_or_uuid E db entity_id (Some (model self))
        = Ok (Some deleted)
        /\ ~ In deleted (rows_of db' (model self))
        /\ (forall row, In row (rows_of db' (model self)) ->
                        In row (rows_of db (model self)))
        /\ (forall row, In row (rows_of db (model self)) -> row <> deleted ->
                        In row (rows_of db' (model self))))
  /\ (forall other, class_name other <> class_name (model self) ->
                    rows_of db' other = rows_of db other)
  /\ delete_entity_from_db_by_id E self entity_id db'
     = Raise (NotFoundException (EntityNotFound entity_id)).
Proof.
  destruct (delete_key _ _ _ _ Hkind Hdelete)
    as (Hanswer & column & key & deleted & Hfound & Hstatement & Hresolve
        & Hagain).
  destruct (mem_delete_effect _ _ _ _ _ _ Hfound Hstatement)
    as (Hgone & Hnot & Hsub & Hkeep & Hothers).
  repeat split; auto.
  exists deleted. auto.
Qed.

End Delete.

(* ================================================================== *)
(** ** Create on the in-memory session *)

Lemma dict_get_of_columns {V} (f : string -> V) k columns :
  In k columns -> dict_get k (map (fun c => (c, f c)) columns) = Some (f k).
Proof.
  induction columns as [| c rest IH]; simpl; [tauto |].
  destruct (c =? k)%string eqn:Hc.
  - apply String.eqb_eq in Hc. subst. reflexivity.
  - intros [-> | H]; [rewrite String.eqb_refl in Hc; discriminate | auto].
Qed.

Lemma filter_none {A} (f : A -> bool) l : existsb f l = false -> filter f l = [].
Proof.
  induction l as [| x rest IH]; simpl; [reflexivity |].
  destruct (f x); simpl; [discriminate | exact IH].
Qed.

Lemma generated_or_bound_key db m values key
    (Htype : id_type m = TInteger \/ id_type m = TUuid)
    (Hkey : match py_get "id" values with
            | VNone => generated_key db m
            | v => bind_parameter (Some (id_type m)) v
            end = Ok key) :
  (exists z, key = VInt z /\ id_type m = TInteger)
  \/ (exists u, key = VUuid u /\ id_type m = TUuid).
Proof.
  unfold generated_key in Hkey.
  destruct (py_get "id" values) as [| b | z | s | u | t | l];
    destruct Htype as [Ht | Ht]; rewrite Ht in Hkey; simpl in Hkey;
    try discriminate;
    try (injection Hkey as <-; eauto).
  destruct (plain_UUID s); [injection Hkey as <-; eauto | discriminate].
Qed.

(** What an insert statement adds, and that its key selects the new row. *)
Lemma mem_insert_effect db db' m values key
    (Hid : In "id" (columns m))
    (Htype : id_type m = TInteger \/ id_type m = TUuid)
    (Hinsert : mem_insert db m values = Ok (db', key)) :
  exists row,
    rows_of db' m = rows_of db m ++ [row]
    /\ dict_get "id" row = Some key
    /\ (forall c v, (c =? "id")%string = false -> In c (columns m) ->
                    dict_get c values = Some v -> dict_get c row = Some v)
    /\ mem_scalar_one_or_none db' m "id" key = Ok (Some row)
    /\ ((exists z, key = VInt z /\ id_type m = TInteger)
        \/ (exists u, key = VUuid u /\ id_type m = TUuid))
    /\ (forall other, class_name other <> class_name m ->
                      rows_of db' other = rows_of db other).
Proof.
  unfold mem_insert in Hinsert.
  destruct (round_trip db m) as [[] |] eqn:Hup; [| discriminate].
  simpl in Hinsert.
  destruct (known_columns m values); [| discriminate].
  apply bind_ok in Hinsert as (k & Hkey & Hinsert).
  destruct (existsb (matches "id" k) (rows_of db m)) eqn:Hfresh; [discriminate |].
  injection Hinsert as <- <-.
  pose proof (generated_or_bound_key _ _ _ _ Htype Hkey) as Hshape.
  assert (Hbind : bind_parameter (column_type m "id") k = Ok k
                  /\ pyval_eqb k k = true).
  { unfold column_type. simpl.
    destruct Hshape as [(z & -> & ->) | (u & -> & ->)]; simpl;
      split; auto using Z.eqb_refl, N.eqb_refl. }
  destruct Hbind as [Hbind Hrefl].
  eexists. repeat split.
  - unfold rows_of at 1. simpl. rewrite dict_get_set_same. reflexivity.
  - rewrite (dict_get_of_columns _ "id" _ Hid). reflexivity.
  - intros c v Hc Hin Hv.
    rewrite (dict_get_of_columns _ c _ Hin). rewrite Hc, Hv. reflexivity.
  - unfold mem_scalar_one_or_none.
    change (round_trip _ m) with (round_trip db m).
    rewrite Hup, Hbind. simpl bind.
    unfold rows_of at 1. simpl tables. rewrite dict_get_set_same.
    rewrite filter_app, (filter_none _ _ Hfresh). simpl.
    unfold matches at 1. unfold py_get.
    rewrite (dict_get_of_columns _ "id" _ Hid). simpl. rewrite Hrefl.
    reflexivity.
  - exact Hshape.
  - intros other Hne. unfold rows_of. simpl.
    rewrite dict_get_set_other by exact Hne. reflexivity.
Qed.

Section Create.

Variable registry : list Model.
Variable self : Repository.

Let E : Env Mem := mem_env registry.

(** X12.  What create stores can be read back.  For a model whose id is a
    mapped column of type integer or UUID, a create that returns has
    appended one row, which carries the values of the payload; the
    resolver finds that row under the identifier of the new row, and the
    document returned is not null. *)
Theorem created_entity_is_stored_and_found entity db db' doc
    (Hid : In "id" (columns (model self)))
    (Htype : id_type (model self) = TInteger \/ id_type (model self) = TUuid)
    (Hcreate : create_entity_in_db E self entity db = Ok (db', doc)) :
  exists row key fields,
    rows_of db' (model self) = rows_of db (model self) ++ [row]
    /\ dict_get "id" row = Some key
    /\ (forall c v, (c =? "id")%string = false ->
                    In c (columns (model self)) ->
                    dict_get c entity = Some v -> dict_get c row = Some v)
    /\ __get_entity_by_id_or_uuid E db' key (Some (model self)) = Ok (Some row)
    /\ doc = JObj fields.
Proof.
  unfold create_entity_in_db in Hcreate.
  unfold getattr_model in Hcreate.
  destruct (hasattr (model self) "id") eqn:Hattr; [| discriminate].
  simpl bind in Hcreate.
  apply bind_ok in Hcreate as ([db1 key] & Hinsert & Hcreate).
  simpl execute_insert in Hinsert.
  destruct (mem_insert_effect _ _ _ _ _ Hid Htype Hinsert)
    as (row & Hrows & Hkey & Hvalues & Hselect & Hkind & _).
  assert (Hresolve :
            __get_entity_by_id_or_uuid E db1 key (Some (model self))
            = Ok (Some row)).
  { unfold __get_entity_by_id_or_uuid, id_python_type_is_UUID, getattr_model.
    rewrite Hattr, andb_true_r.
    destruct (hasattr (model self) "uuid");
      destruct Hkind as [(z & -> & Ht) | (u & -> & Ht)];
      try rewrite Ht; simpl.
    all: first [exact Hselect | rewrite Hselect; reflexivity]. }
  assert (Hexpanded : forall d,
             __get_one_recursive E db1 2 (Some (model self)) key = Ok d ->
             exists fields, d = JObj fields).
  { intros d Hd. rewrite get_one_recursive_unfold, Hresolve in Hd.
    apply bind_ok in Hd as (adds & _ & Hd). injection Hd as <-. eauto. }
  destruct (hasattr (model self) "uuid" && id_python_type_is_UUID (model self)).
  - simpl scalar_one_or_none in Hcreate. rewrite Hselect in Hcreate.
    simpl in Hcreate. injection Hcreate as <- <-.
    exists row, key. eexists. repeat split; eauto.
  - apply bind_ok in Hcreate as (d & Hd & Hcreate).
    injection Hcreate as <- <-.
    destruct (Hexpanded _ Hd) as (fields & ->).
    exists row, key, fields. repeat split; auto.
Qed.

End Create.

(* ================================================================== *)
(** ** The organization of the user *)

Lemma declares_In entity name :
  declares entity name = true -> In name (map fst (model_fields entity)).
Proof.
  unfold declares. intro H. apply existsb_exists in H as (field & Hin & Hname).
  apply String.eqb_eq in Hname. subst. apply in_map. exact Hin.
Qed.

Lemma model_dump_of_set_field entity name v :
  declares entity name = true ->
  dict_get name (model_dump (set_field entity name v)) = Some v.
Proof.
  unfold declares, model_dump, set_field. simpl.
  induction (model_fields entity) as [| [f d] rest IH]; simpl; [discriminate |].
  destruct (f =? name)%string eqn:Hf.
  - apply String.eqb_eq in Hf. subst. rewrite dict_get_set_same. reflexivity.
  - simpl. exact IH.
Qed.





(** The row that an insert statement appends carries the values it was
    given. *)
Lemma mem_insert_row db db' m values key :
  mem_insert db m values = Ok (db', key) ->
  exists row,
    rows_of db' m = rows_of db m ++ [row]
    /\ forall c v, (c =? "id")%string = false -> In c (columns m) ->
                   dict_get c values = Some v -> dict_get c row = Some v.
Proof.
  unfold mem_insert. intro Hinsert.
  destruct (round_trip db m) as [[] |]; [| discriminate].
  simpl in Hinsert.
  destruct (known_columns m values); [| discriminate].
  apply bind_ok in Hinsert as (k & _ & Hinsert).
  destruct (existsb (matches "id" k) (rows_of db m)); [discriminate |].
  injection Hinsert as <- <-.
  eexists. split.
  - unfold rows_of at 1. simpl. rewrite dict_get_set_same. reflexivity.
  - intros c v Hc Hin Hv.
    rewrite (dict_get_of_columns _ c _ Hin). rewrite Hc, Hv. reflexivity.
Qed.

Section Tenant.

Variable registry : list Model.
Variable self : Repository.
Variable get_response_scheme : list (string * json) -> result json.

Let E : Env Mem := mem_env registry.

(** X13.  Whatever organization the payload names, the entity that the
    service creates for a user is stored under the organization of that
    user. *)
Theorem created_entity_belongs_to_the_user entity user db db' scheme
    (Hdeclared : declares entity "organization_id" = true)
    (Hcolumn : In "organization_id" (columns (model self)))
    (Hcreate : create_entity E self get_response_scheme entity (Some user) db
               = Ok (db', scheme)) :
  exists row,
    rows_of db' (model self) = rows_of db (model self) ++ [row]
    /\ dict_get "organization_id" row = Some (organization_id user).
Proof.
  unfold create_entity in Hcreate. rewrite Hdeclared in Hcreate.
  set (values := model_dump (set_field entity "organization_id"
                               (organization_id user))) in *.
  destruct (create_entity_in_db E self values db) as [[db1 data] |] eqn:Hrepo;
    [| simpl in Hcreate; destruct e; discriminate].
  simpl in Hcreate.
  destruct (respond get_response_scheme data) as [r |] eqn:Hr;
    [| simpl in Hcreate; destruct e; discriminate].
  simpl in Hcreate. injection Hcreate as <- <-.
  unfold create_entity_in_db in Hrepo.
  apply bind_ok in Hrepo as ([] & _ & Hrepo).
  apply bind_ok in Hrepo as ([db2 key] & Hinsert & Hrepo).
  assert (Hsame : db2 = db1).
  { destruct (hasattr (model self) "uuid" && id_python_type_is_UUID (model self)).
    - apply bind_ok in Hrepo as (created & _ & Hrepo).
      destruct created; [injection Hrepo as <- _; reflexivity |].
      apply bind_ok in Hrepo as (d & _ & Hrepo).
      injection Hrepo as <- _. reflexivity.
    - apply bind_ok in Hrepo as (d & _ & Hrepo).
      injection Hrepo as <- _. reflexivity. }
  subst db2. simpl execute_insert in Hinsert.
  destruct (mem_insert_row _ _ _ _ _ Hinsert) as (row & Hrows & Hvalues).
  exists row. split; [exact Hrows |].
  apply Hvalues; [reflexivity | exact Hcolumn |].
  apply model_dump_of_set_field. exact Hdeclared.
Qed.


End Tenant.

(* ================================================================== *)
(** ** The reads of the service *)

Lemma mapM_In {A B} (f : A -> result B) (xs : list A) (ys : list B) (x : A) :
  mapM f xs = Ok ys -> In x xs -> exists y, f x = Ok y /\ In y ys.
Proof.
  revert ys. induction xs as [| x' rest IH]; simpl; intros ys H Hin; [tauto |].
  apply bind_ok in H as (y' & Hy' & H).
  apply bind_ok in H as (ys' & Hys' & H).
  injection H as <-.
  destruct Hin as [-> | Hin].
  - exists y'. simpl. auto.
  - destruct (IH _ Hys' Hin) as (y & Hy & Hyin). exists y. simpl. auto.
Qed.

Lemma mapM_fails {A B} (f : A -> result B) (xs : list A) (x : A) (e : exn) :
  In x xs -> f x = Raise e -> exists e', mapM f xs = Raise e'.
Proof.
  induction xs as [| x' rest IH]; simpl; intros Hin Hx; [tauto |].
  destruct (f x') as [y' | e'] eqn:Hx'; simpl; [| eauto].
  destruct Hin as [-> | Hin]; [congruence |].
  destruct (IH Hin Hx) as (e'' & ->). simpl. eauto.
Qed.

Section ServiceReads.

Context {Session : Type}.
Variable E : Env Session.
Variable self : Repository.
Variable get_response_scheme : list (string * json) -> result json.

Lemma str_to_UUID_raises entity_id e :
  str_to_UUID E entity_id = Raise e -> e = ValueError.
Proof.
  destruct entity_id as [| b | z | s | u | t | l]; simpl; try discriminate.
  destruct (UUID E s); [discriminate |]. intro H. injection H as <-. reflexivity.
Qed.

Lemma read_is_document_or_null entity_id session depth doc :
  get_entity_from_db_by_id E self entity_id session depth = Ok doc ->
  doc = JNull \/ exists fields, doc = JObj fields.
Proof.
  assert (Hone : forall key,
             __get_one_recursive E session depth (Some (model self)) key = Ok doc ->
             doc = JNull \/ exists fields, doc = JObj fields).
  { intros key. rewrite get_one_recursive_unfold.
    destruct (__get_entity_by_id_or_uuid E session key (Some (model self)))
      as [[row |] | e]; try (intro H; injection H as <-; auto).
    intro H. apply bind_ok in H as (adds & _ & H). injection H as <-. eauto. }
  unfold get_entity_from_db_by_id.
  destruct (hasattr (model self) "uuid" && hasattr (model self) "id"
            && id_python_type_is_UUID (model self)); [| apply Hone].
  destruct (str_to_UUID E entity_id) as [key | e]; [apply Hone |].
  destruct e; try discriminate. intro H. injection H as <-. auto.
Qed.

Lemma read_raises_TypeError entity_id session depth e :
  get_entity_from_db_by_id E self entity_id session depth = Raise e ->
  e = TypeError.
Proof.
  unfold get_entity_from_db_by_id.
  destruct (hasattr (model self) "uuid" && hasattr (model self) "id"
            && id_python_type_is_UUID (model self));
    [| apply only_TypeError_escapes].
  destruct (str_to_UUID E entity_id) as [key | e'] eqn:Hkey;
    [apply only_TypeError_escapes |].
  apply str_to_UUID_raises in Hkey. subst e'. discriminate.
Qed.

(** X15.  No error of the store leaves the read of the service.  What it
    raises, other than [NotFoundException()], has been raised by the
    response scheme, or is the [TypeError] of a plural column that is
    not iterable or of a document that is no mapping. *)
Theorem service_read_hides_store_errors entity_id session e
    (Hraised : get_entity_by_id E self get_response_scheme entity_id session
               = Failed (Propagated e)) :
  e = TypeError \/ exists fields, get_response_scheme fields = Raise e.
Proof.
  unfold get_entity_by_id in Hraised.
  destruct (get_entity_from_db_by_id E self entity_id session 4)
    as [doc | e'] eqn:Hread.
  - destruct (read_is_document_or_null _ _ _ _ Hread) as [-> | (fields & ->)];
      [discriminate |].
    simpl in Hraised.
    destruct (get_response_scheme fields) as [scheme | e'] eqn:Hscheme;
      [discriminate |].
    injection Hraised as <-. right. eauto.
  - apply read_raises_TypeError in Hread. subst e'.
    injection Hraised as <-. left. reflexivity.
Qed.

Lemma resolver_without_store session key
    (Hdown : forall column v, exists e,
        scalar_one_or_none E session (model self) column v = Raise e) :
  has_row (__get_entity_by_id_or_uuid E session key (Some (model self))) = false.
Proof.
  assert (Hquery : forall column v,
             has_row (scalar_one_or_none E session (model self) column v) = false
             /\ has_row match scalar_one_or_none E session (model self) column v with
                        | Raise ValueError => Ok None
                        | r => r
                        end = false
             /\ has_row match scalar_one_or_none E session (model self) column v with
                        | Raise ValueError => Raise (AttributeError "isdigit")
                        | r => r
                        end = false).
  { intros column v. destruct (Hdown column v) as (e & ->).
    destruct e; auto. }
  unfold __get_entity_by_id_or_uuid.
  destruct (hasattr (model self) "uuid" && hasattr (model self) "id").
  - destruct (id_python_type_is_UUID (model self)).
    + destruct (str_to_UUID E key) as [k | e] eqn:Hkey.
      * apply Hquery.
      * apply str_to_UUID_raises in Hkey. subst e. reflexivity.
    + destruct key as [| b | z | s | u | t | l]; try apply Hquery.
      destruct (UUID E s); [apply Hquery |].
      destruct (isdigit s); [apply Hquery | reflexivity].
  - unfold getattr_model. destruct (hasattr (model self) "id"); simpl;
      [apply Hquery | reflexivity].
Qed.

(** X16.  While the store fails on every query of the model, the read of the
    service raises [NotFoundException()], for every identifier. *)
Theorem store_failure_reads_as_not_found entity_id session
    (Hdown : forall column v, exists e,
        scalar_one_or_none E session (model self) column v = Raise e) :
  get_entity_by_id E self get_response_scheme entity_id session
  = Failed NotFoundDefault.
Proof.
  assert (Hone : forall key,
             __get_one_recursive E session 4 (Some (model self)) key = Ok JNull).
  { intro key. apply absent_row_is_null.
    apply resolver_without_store. exact Hdown. }
  unfold get_entity_by_id, get_entity_from_db_by_id.
  destruct (hasattr (model self) "uuid" && hasattr (model self) "id"
            && id_python_type_is_UUID (model self)); [| rewrite Hone; reflexivity].
  destruct (str_to_UUID E entity_id) as [key | e] eqn:Hkey.
  - rewrite Hone. reflexivity.
  - apply str_to_UUID_raises in Hkey. subst e. reflexivity.
Qed.

(** X17.  One listed entity that cannot be fetched fails the whole listing of
    the service: the null that stands for it is no mapping for the
    response scheme, and every exception of the listing is raised again
    as a bad request. *)
Theorem vanished_entity_fails_the_listing session depth ids gone
    (Hids : scalars_all E session (model self)
              {| q_filters := []; q_offset := None; q_limit := None |}
            = Ok ids)
    (Hin : In gone ids)
    (Hgone : has_row (__get_entity_by_id_or_uuid E session gone
                        (Some (model self))) = false) :
  exists ex,
    get_all_entities E self get_response_scheme session None depth
    = Raise (BadRequestException ex).
Proof.
  unfold get_all_entities, get_all_entities_from_db, __get_all_recursive.
  cbn [bind]. rewrite Hids. cbn [bind].
  destruct (mapM (__get_one_recursive E session depth (Some (model self))) ids)
    as [docs | e] eqn:Hdocs; cbn [bind]; [| eauto].
  destruct (mapM_In _ _ _ _ Hdocs Hin) as (doc & Hdoc & Hdocin).
  rewrite (absent_row_is_null E session depth _ _ Hgone) in Hdoc.
  injection Hdoc as <-.
  destruct (mapM_fails
              (fun entity => match entity with
                             | JObj fields => get_response_scheme fields
                             | _ => Raise TypeError
                             end) docs JNull TypeError Hdocin eq_refl)
    as (e' & He').
  exists e'. rewrite He'. reflexivity.
Qed.

End ServiceReads.

(* ================================================================== *)
(** ** The cases *)

Import Cases.

(** An update of the user 5 that gives [None] for the first name only. *)
Lemma update_without_values_writes_nothing_witness :
  non_null_fields [("first_name", VNone)] = []
  /\ update_entity_in_db env (BaseRepository User) (VStr user_5_uuid)
       [("first_name", VNone)] db
     = Ok (db, user_5_document)
  /\ db = db.
Proof.
  split; [reflexivity |]. split; [vm_compute; reflexivity |].
  apply (update_without_values_writes_nothing env (BaseRepository User)
           (VStr user_5_uuid) [("first_name", VNone)] db db user_5_document).
  - reflexivity.
  - vm_compute. reflexivity.
Defined.

(** The user 5 is in the store, and an update under ["5"] does not reach
    it. *)
Lemma update_by_non_token_is_not_found_witness :
  update_entity_in_db env (BaseRepository User) (VStr "5") partial_payload db
  = Raise (NotFoundException (InvalidUUIDFormat (VStr "5"))).
Proof.
  apply (update_by_non_token_is_not_found env (BaseRepository User)
           "5" partial_payload db).
  - vm_compute. reflexivity.
  - vm_compute. reflexivity.
Defined.


(** The second page of two of the active users: four rows are skipped. *)
Lemma page_offset_drops_the_limit_witness :
  get_all_entities_from_db env (BaseRepository User) db
    (Some [("is_active", VBool true); ("limit", VInt 2); ("offset", VInt 2)]) 1
  = (ids <- scalars_all env db User
              {| q_filters := [Eq "is_active" (VBool true)];
                 q_offset := Some (VInt (2 * 2));
                 q_limit := None |} ;;
     mapM (__get_one_recursive env db 1 (Some User)) ids).
Proof.
  apply (page_offset_drops_the_limit env (BaseRepository User) db
           [("is_active", VBool true); ("limit", VInt 2); ("offset", VInt 2)] 1
           (Eq "is_active" (VBool true)) [] 2 2).
  - vm_compute. reflexivity.
  - vm_compute. reflexivity.
  - vm_compute. reflexivity.
  - vm_compute. reflexivity.
  - vm_compute. reflexivity.
Defined.

Lemma filters_without_pagination_witness :
  get_all_entities_from_db env (BaseRepository User) db
    (Some [("is_active", VBool true)]) 1
  = (ids <- scalars_all env db User
              {| q_filters := [Eq "is_active" (VBool true)];
                 q_offset := None;
                 q_limit := None |} ;;
     mapM (__get_one_recursive env db 1 (Some User)) ids).
Proof.
  apply (filters_without_pagination env (BaseRepository User) db
           [("is_active", VBool true)] 1 (Eq "is_active" (VBool true)) []).
  - vm_compute. reflexivity.
  - vm_compute. reflexivity.
  - vm_compute. reflexivity.
Defined.

(** The delete of the tag 7, twice. *)
Lemma delete_then_delete_is_not_found_witness :
  delete_entity_from_db_by_id env (BaseRepository Tag) (VInt 7) db
  = Ok (db_without_news, JSONResponse 204)
  /\ delete_entity_from_db_by_id env (BaseRepository Tag) (VInt 7) db_without_news
     = Raise (NotFoundException (EntityNotFound (VInt 7))).
Proof.
  split; [vm_compute; reflexivity |].
  apply (delete_then_delete_is_not_found registry (BaseRepository Tag) (VInt 7)
           db db_without_news (JSONResponse 204)).
  - vm_compute. reflexivity.
  - vm_compute. reflexivity.
Defined.

(** The create of the tag [sport]. *)
Lemma created_entity_is_stored_and_found_witness :
  exists row key fields,
    rows_of db_with_sport Tag = rows_of db Tag ++ [row]
    /\ dict_get "id" row = Some key
    /\ (forall c v, (c =? "id")%string = false ->
                    In c (columns Tag) ->
                    dict_get c sport_payload = Some v -> dict_get c row = Some v)
    /\ __get_entity_by_id_or_uuid env db_with_sport key (Some Tag) = Ok (Some row)
    /\ JObj (__object_as_dict sport) = JObj fields.
Proof.
  apply (created_entity_is_stored_and_found registry (BaseRepository Tag)
           sport_payload db db_with_sport (JObj (__object_as_dict sport))).
  - simpl. auto.
  - left. reflexivity.
  - vm_compute. reflexivity.
Defined.

(** A user of [acme] creates a user and names another organization. *)
Lemma created_entity_belongs_to_the_user_witness :
  exists row,
    rows_of db_with_eve User = rows_of db User ++ [row]
    /\ dict_get "organization_id" row = Some (VUuid 9).
Proof.
  apply (created_entity_belongs_to_the_user registry (BaseRepository User)
           any_scheme new_user ann db db_with_eve user_100_document).
  - vm_compute. reflexivity.
  - simpl. tauto.
  - vm_compute. reflexivity.
Defined.


(** The tag 7 under a response scheme that rejects it. *)
Lemma service_read_hides_store_errors_witness :
  ValueError = TypeError \/ exists fields, no_scheme fields = Raise ValueError.
Proof.
  apply (service_read_hides_store_errors env (BaseRepository Tag) no_scheme
           (VInt 7) db ValueError).
  vm_compute. reflexivity.
Defined.

(** The tag 7 while the table of the tags cannot be reached. *)
Lemma store_failure_reads_as_not_found_witness :
  get_entity_by_id env (BaseRepository Tag) any_scheme (VInt 7) db_without_tags
  = Failed NotFoundDefault.
Proof.
  apply (store_failure_reads_as_not_found env (BaseRepository Tag) any_scheme
           (VInt 7) db_without_tags).
  intros column v. exists DBAPIError. reflexivity.
Defined.

(** The listing of the tags when the tag 1 is gone before it is fetched. *)
Lemma vanished_entity_fails_the_listing_witness :
  exists ex,
    get_all_entities (emptied [VInt 1]) (BaseRepository Tag) any_scheme tt None 4
    = Raise (BadRequestException ex).
Proof.
  apply (vanished_entity_fails_the_listing (emptied [VInt 1]) (BaseRepository Tag)
           any_scheme tt 4 [VInt 1] (VInt 1)).
  - reflexivity.
  - simpl. auto.
  - reflexivity.
Defined.
